(** * chuk-mcp-time: the time oracle's orchestrator, over binary64 floats

    A shallow embedding of [src/chuk_mcp_time/models.py] and
    [src/chuk_mcp_time/server.py].

    - A Python [float] is an IEEE 754 binary64 number: Rocq's primitive
      [float], whose operations round to nearest, ties to even, as
      CPython's do.
    - A Python [int] is a [Z]; a [str] is a [string]; a [list] is a [list].
    - [server.py] reads the wall clock, queries the network and can raise:
      its functions live in a state-and-exception monad over a world that
      the collaborators ([time.time], the NTP client, the consensus engine)
      act upon.
    - The collaborators that are not part of these two modules (the
      configuration, the NTP client, the consensus engine, [datetime] and
      [zoneinfo]) are the variables of a section. *)

From Stdlib Require Import ZArith List String Ascii Bool Lia DecimalString.
From Stdlib Require Import Floats.
Import ListNotations.

Local Open Scope string_scope.
Local Open Scope Z_scope.

(* Decimal literals such as 0.1 denote the nearest binary64 number, as in
   Python. *)
Set Warnings "-inexact-float".

(** ** Python values *)

Module Py.

(** An exception, as far as the code looks at it: [str(e)]. *)
Record exception := Raise { str : string }.

(** The outcome of evaluating an expression that may raise. *)
Definition result (A : Type) : Type := (exception + A)%type.

Definition ok {A} (a : A) : result A := inr a.
Definition raise {A} (msg : string) : result A := inl (Raise msg).

(** [int(x)] for a float [x]: truncation toward zero; [ValueError] on a NaN
    and [OverflowError] on an infinity. *)
Definition trunc (x : spec_float) : option Z :=
  match x with
  | S754_zero _ => Some 0
  | S754_finite s m e => Some (cond_Zopp s (Z.shiftl (Z.pos m) e))
  | S754_infinity _ | S754_nan => None
  end.

Definition int (x : float) : result Z :=
  match Prim2SF x with
  | S754_nan => raise "cannot convert float NaN to integer"
  | S754_infinity _ => raise "cannot convert float infinity to integer"
  | sf => match trunc sf with
          | Some z => ok z
          | None => raise "unreachable"
          end
  end.

(** [l[:n]]: the first [n] items when [n >= 0], all but the last [-n]
    when [n < 0]; never out of range. *)
Definition slice_to {A} (l : list A) (n : Z) : list A :=
  if 0 <=? n then firstn (Z.to_nat n) l
  else firstn (Z.to_nat (Z.of_nat (List.length l) + n)) l.

(** An [int] operand of a float operation is converted first, rounding to
    nearest; [OverflowError] when the integer is beyond the floats. *)
Definition float_of_int (z : Z) : result float :=
  match binary_normalize prec emax z 0 false with
  | S754_infinity _ => raise "int too large to convert to float"
  | sf => ok (SF2Prim sf)
  end.

(** [math.isfinite(x)]: neither a NaN nor an infinity; [int(x)] raises on
    the floats that are not finite and on no other. *)
Definition isfinite (x : float) : bool :=
  match Prim2SF x with
  | S754_zero _ | S754_finite _ _ _ => true
  | S754_infinity _ | S754_nan => false
  end.

End Py.

(** ** models.py *)

(** [class AccuracyMode(str, Enum)] *)
Inductive AccuracyMode := FAST | ACCURATE.

(** [class ConsensusMethod(str, Enum)] *)
Inductive ConsensusMethod := MEDIAN_WITH_OUTLIER_REJECTION | SYSTEM_FALLBACK.

(** [class ClockStatus(str, Enum)] *)
Inductive ClockStatus := OK | DRIFT | ERROR.

(** [class NTPError(str, Enum)] *)
Inductive NTPError := TIMEOUT | DNS_ERROR | NETWORK_ERROR | PARSE_ERROR.

(** The [.value] of each member. *)
Definition AccuracyMode_value (m : AccuracyMode) : string :=
  match m with FAST => "fast" | ACCURATE => "accurate" end.

Definition ConsensusMethod_value (m : ConsensusMethod) : string :=
  match m with
  | MEDIAN_WITH_OUTLIER_REJECTION => "median_with_outlier_rejection"
  | SYSTEM_FALLBACK => "system_fallback"
  end.

Definition ClockStatus_value (s : ClockStatus) : string :=
  match s with OK => "ok" | DRIFT => "drift" | ERROR => "error" end.

Definition NTPError_value (e : NTPError) : string :=
  match e with
  | TIMEOUT => "timeout"
  | DNS_ERROR => "dns_error"
  | NETWORK_ERROR => "network_error"
  | PARSE_ERROR => "parse_error"
  end.

(** [mode == AccuracyMode.FAST] *)
Definition AccuracyMode_eqb (a b : AccuracyMode) : bool :=
  match a, b with
  | FAST, FAST | ACCURATE, ACCURATE => true
  | _, _ => false
  end.

(** [class NTPResponse(BaseModel)] *)
Record NTPResponse := {
  ntp_server : string;
  ntp_timestamp : float;
  ntp_rtt_ms : float;
  ntp_stratum : Z;
  ntp_success : bool;
  ntp_error : option string;
  ntp_error_type : option NTPError
}.

(** [class SourceSample(BaseModel)] *)
Record SourceSample := {
  ss_server : string;
  ss_success : bool;
  ss_timestamp : option float;
  ss_rtt_ms : option float;
  ss_stratum : option Z;
  ss_error : option string
}.

(** [class TimeConsensus(BaseModel)] *)
Record TimeConsensus := {
  tc_timestamp : float;
  tc_iso8601_time : string;
  tc_epoch_ms : Z;
  tc_sources_used : Z;
  tc_total_sources : Z;
  tc_consensus_method : ConsensusMethod;
  tc_estimated_error_ms : float;
  tc_source_samples : list SourceSample;
  tc_warnings : list string;
  tc_system_time : string;
  tc_system_delta_ms : float
}.

(** [class TimeResponse(BaseModel)].  [source_samples] holds the
    [model_dump()] of each sample, a dict with the sample's six fields:
    the sample itself stands for it. *)
Record TimeResponse := {
  iso8601_time : string;
  epoch_ms : Z;
  sources_used : Z;
  total_sources : Z;
  consensus_method : string;
  estimated_error_ms : float;
  source_samples : list SourceSample;
  warnings : list string;
  system_time : string;
  system_delta_ms : float;
  query_duration_ms : float;
  latency_compensated : bool
}.

(** [class TimezoneResponse(TimeResponse)]: the inherited fields, then
    [timezone] and [local_time]. *)
Record TimezoneResponse := {
  base : TimeResponse;
  timezone : string;
  local_time : string
}.

(** [class ClockComparisonResponse(BaseModel)] *)
Record ClockComparisonResponse := {
  cc_system_time : string;
  cc_trusted_time : string;
  cc_delta_ms : float;
  cc_estimated_error_ms : float;
  cc_status : ClockStatus
}.

(** ** The world monad

    A computation of [server.py] runs in a world (the wall clock, the
    network), which it may change, and ends with a value or an exception. *)

Definition M (World A : Type) : Type := World -> Py.result A * World.

Definition ret {World A} (a : A) : M World A := fun w => (Py.ok a, w).

Definition bind {World A B} (c : M World A) (k : A -> M World B) : M World B :=
  fun w =>
    match c w with
    | (inr a, w') => k a w'
    | (inl e, w') => (inl e, w')
    end.

(** A pure expression that may raise, used as a statement. *)
Definition lift {World A} (r : Py.result A) : M World A := fun w => (r, w).

(** A collaborator that acts on the world and never raises. *)
Definition total {World A} (f : World -> A * World) : M World A :=
  fun w => let (a, w') := f w in (Py.ok a, w').

Declare Scope monad_scope.
Delimit Scope monad_scope with monad.
Notation "x <- c ;; k" := (bind c (fun x => k))
  (at level 61, c at next level, right associativity) : monad_scope.
Notation "' pat <- c ;; k" := (bind c (fun x => match x with pat => k end))
  (at level 61, pat pattern, c at next level, right associativity) : monad_scope.

(** The same sequencing for pure expressions that may raise. *)
Definition and_then {A B} (r : Py.result A) (k : A -> Py.result B) : Py.result B :=
  match r with
  | inr a => k a
  | inl e => inl e
  end.

(** ** The configuration read by server.py

    [get_config()] of [chuk_mcp_time.config]: the attributes that
    [server.py] reads. *)
Record Config := {
  ntp_servers : list string;
  ntp_timeout : float;
  max_outlier_deviation_ms : float;
  min_sources : Z;
  max_disagreement_ms : float;
  fast_mode_server_count : Z
}.

(** ** server.py *)

Module Server.

Section Collaborators.

Local Open Scope monad_scope.

(** The world and the collaborators. *)
Variable World : Type.

(** [time_module.time()] *)
Variable time : World -> float * World.

(** [_config = get_config()] *)
Variable _config : Config.

(** [_ntp_client.query_multiple_servers(servers)] *)
Variable query_multiple_servers : list string -> M World (list NTPResponse).

(** [_consensus_engine.compute_consensus(responses)] *)
Variable compute_consensus : list NTPResponse -> M World TimeConsensus.

(** [datetime] and [zoneinfo]: aware datetimes, time zones, and
    [datetime.fromtimestamp(t, tz=UTC)], [ZoneInfo(key)],
    [dt.astimezone(tz)], [dt.isoformat()]. *)
Variable datetime : Type.
Variable tzinfo : Type.
Variable fromtimestamp_utc : float -> Py.result datetime.
Variable ZoneInfo : string -> Py.result tzinfo.
Variable astimezone : datetime -> tzinfo -> Py.result datetime.
Variable isoformat : datetime -> string.

(** [f"{x:.1f}"] *)
Variable format_1f : float -> string.

(** The servers of a mode (lines 56-60). *)
Definition select_servers (mode : AccuracyMode) : list string :=
  if AccuracyMode_eqb mode FAST
  then Py.slice_to (ntp_servers _config) (fast_mode_server_count _config)
  else ntp_servers _config.

(** The warning of line 82. *)
Definition latency_warning (query_duration_ms : float) : string :=
  "Applied +" ++ format_1f query_duration_ms ++ "ms latency compensation to timestamp".

Definition get_time_utc (mode : AccuracyMode) (compensate_latency : bool)
  : M World TimeResponse :=
  (* Record start time for latency compensation *)
  query_start <- total time ;;
  (* Select servers based on mode *)
  let servers := select_servers mode in
  (* Query NTP servers asynchronously *)
  responses <- query_multiple_servers servers ;;
  (* Compute consensus *)
  consensus <- compute_consensus responses ;;
  (* Calculate query duration *)
  query_end <- total time ;;
  let query_duration := (query_end - query_start)%float in
  let query_duration_ms := (query_duration * 1000)%float in
  (* Apply latency compensation if requested *)
  '(iso8601_time, epoch_ms, estimated_error_ms, warnings, system_delta_ms) <-
    (if compensate_latency then
       let compensated_timestamp := (tc_timestamp consensus + query_duration)%float in
       compensated_epoch_ms <- lift (Py.int (compensated_timestamp * 1000)%float) ;;
       compensated_dt <- lift (fromtimestamp_utc compensated_timestamp) ;;
       let compensated_iso8601 := isoformat compensated_dt in
       let warnings := tc_warnings consensus in
       let warnings :=
         if (100 <? query_duration_ms)%float
         then (warnings ++ [latency_warning query_duration_ms])%list
         else warnings in
       let adjusted_error :=
         (tc_estimated_error_ms consensus + query_duration_ms * 0.1)%float in
       current_system_time <- total time ;;
       let system_delta_ms :=
         ((current_system_time - compensated_timestamp) * 1000)%float in
       ret (compensated_iso8601, compensated_epoch_ms, adjusted_error,
            warnings, system_delta_ms)
     else
       ret (tc_iso8601_time consensus, tc_epoch_ms consensus,
            tc_estimated_error_ms consensus, tc_warnings consensus,
            tc_system_delta_ms consensus)) ;;
  ret {| iso8601_time := iso8601_time;
         epoch_ms := epoch_ms;
         sources_used := tc_sources_used consensus;
         total_sources := tc_total_sources consensus;
         consensus_method := ConsensusMethod_value (tc_consensus_method consensus);
         estimated_error_ms := estimated_error_ms;
         source_samples := tc_source_samples consensus;
         warnings := warnings;
         system_time := tc_system_time consensus;
         system_delta_ms := system_delta_ms;
         query_duration_ms := query_duration_ms;
         latency_compensated := compensate_latency |}.

(** The body of the [try] of [get_time_for_timezone] up to [local_time]
    (lines 148-151); it touches no state. *)
Definition to_local_time (time_response : TimeResponse) (timezone_name : string)
  : Py.result string :=
  and_then (Py.float_of_int (epoch_ms time_response)) (fun ms =>
  let utc_timestamp := (ms / 1000)%float in
  and_then (fromtimestamp_utc utc_timestamp) (fun utc_dt =>
  and_then (ZoneInfo timezone_name) (fun tz =>
  and_then (astimezone utc_dt tz) (fun local_dt =>
  Py.ok (isoformat local_dt))))).

(** [time_response.model_dump(exclude={"warnings"})] with [warnings=...]
    given next to it. *)
Definition with_warnings (r : TimeResponse) (ws : list string) : TimeResponse :=
  {| iso8601_time := iso8601_time r;
     epoch_ms := epoch_ms r;
     sources_used := sources_used r;
     total_sources := total_sources r;
     consensus_method := consensus_method r;
     estimated_error_ms := estimated_error_ms r;
     source_samples := source_samples r;
     warnings := ws;
     system_time := system_time r;
     system_delta_ms := system_delta_ms r;
     query_duration_ms := query_duration_ms r;
     latency_compensated := latency_compensated r |}.

(** The warning of line 162. *)
Definition conversion_warning (timezone_name : string) (e : Py.exception) : string :=
  "Failed to convert to timezone " ++ timezone_name ++ ": " ++ Py.str e.

Definition get_time_for_timezone (timezone_name : string) (mode : AccuracyMode)
  (compensate_latency : bool) : M World TimezoneResponse :=
  (* Get UTC consensus first *)
  time_response <- get_time_utc mode compensate_latency ;;
  (* Convert to requested timezone *)
  match to_local_time time_response timezone_name with
  | inr local_time =>
      ret {| base := time_response;
             timezone := timezone_name;
             local_time := local_time |}
  | inl e =>
      (* If timezone conversion fails, add error to warnings *)
      let warnings :=
        (warnings time_response ++ [conversion_warning timezone_name e])%list in
      ret {| base := with_warnings time_response warnings;
             timezone := timezone_name;
             local_time := "ERROR: " ++ Py.str e |}
  end.

(** Lines 193-199: the status of a delta. *)
Definition clock_status (system_delta_ms : float) : ClockStatus :=
  let abs_delta := abs system_delta_ms in
  if (abs_delta <? 100)%float then OK
  else if (abs_delta <? 1000)%float then DRIFT
  else ERROR.

Definition compare_system_clock (mode : AccuracyMode) : M World ClockComparisonResponse :=
  time_response <- get_time_utc mode true ;;
  (* Determine status based on delta *)
  let status := clock_status (system_delta_ms time_response) in
  ret {| cc_system_time := system_time time_response;
         cc_trusted_time := iso8601_time time_response;
         cc_delta_ms := system_delta_ms time_response;
         cc_estimated_error_ms := estimated_error_ms time_response;
         cc_status := status |}.

(** The query phase of [get_time_utc] (lines 54-70): the clock reads
    [query_start], the servers of the mode are queried, the engine computes
    [consensus], the clock reads [query_end]. *)
Inductive queried (mode : AccuracyMode) (w : World)
  : float -> TimeConsensus -> float -> World -> Prop :=
| Queried query_start w0 responses w1 consensus w2 query_end w3 :
    time w = (query_start, w0) ->
    query_multiple_servers (select_servers mode) w0 = (inr responses, w1) ->
    compute_consensus responses w1 = (inr consensus, w2) ->
    time w2 = (query_end, w3) ->
    queried mode w query_start consensus query_end w3.

End Collaborators.

End Server.

(** ** server.py: main

    [main()] configures the [logging] module and hands over to [run] of
    [chuk_mcp_server].  It is modelled by the calls it makes, in order. *)

Module Main.

(** The levels of [logging] that [main] uses. *)
Inductive Level := INFO | WARNING | ERROR.

(** A call made by [main]: [logging.basicConfig(level=..., format=...,
    stream=sys.stderr)], [logging.getLogger(name).info(msg)],
    [logging.getLogger(name).setLevel(level)], [run(transport=...)]. *)
Inductive Call :=
| basicConfig (level : Level) (format : string)
| info (logger : string) (msg : string)
| setLevel (logger : string) (level : Level)
| run (transport : string).

(** [x in l] for a list of strings. *)
Definition mem (x : string) (l : list string) : bool :=
  existsb (String.eqb x) l.

(** [main()], for the module name [__name__] and the arguments
    [sys.argv]. *)
Definition main (__name__ : string) (argv : list string) : list Call :=
  (* Default to stdio for MCP compatibility *)
  let transport := "stdio" in
  (* Allow HTTP mode via command line *)
  let http := (1 <? Z.of_nat (List.length argv))
              && mem (nth 1 argv "") ["http"; "--http"] in
  let transport := if http then "http" else transport in
  ((if http then
      (* Configure logging for HTTP mode *)
      [basicConfig INFO "%(levelname)s:%(name)s:%(message)s";
       info __name__ "Starting Chuk MCP Time Server in HTTP mode"]
    else [])
   ++
   (* Suppress logging in STDIO mode to avoid polluting JSON-RPC stream *)
   (if String.eqb transport "stdio" then
      [basicConfig WARNING "%(levelname)s:%(name)s:%(message)s";
       (* Set chuk_mcp_server loggers to ERROR only *)
       setLevel "chuk_mcp_server" ERROR;
       setLevel "chuk_mcp_server.core" ERROR;
       setLevel "chuk_mcp_server.stdio_transport" ERROR]
    else [])
   ++ [run transport])%list.

End Main.

(** ** The collaborators that are not in these modules

    [chuk_mcp_time/ntp_client.py] and [chuk_mcp_time/consensus.py] are
    imported by [server.py]; what follows stands for them where a property
    of [server.py] depends on what they return. *)

Module SpecModel.

Section Engine.

Local Open Scope monad_scope.

Variable World : Type.

(** The system clock. *)
Variable time : World -> float * World.

(** The Time-Source Client (spec 4.1): given a server, exactly one sample,
    whatever the network does; no failure is propagated upward. *)
Variable query_server : string -> World -> NTPResponse * World.

(** Modelled from the spec: the Query Fan-Out of [ntp_client.py] (spec 4.2),
    "return the list of Source Samples, one per input descriptor, in input
    order, once every query has either completed or timed out".  The
    interleaving of the concurrent queries is not modelled: the queries act
    on the world one after the other. *)
Fixpoint query_multiple_servers (servers : list string) : M World (list NTPResponse) :=
  match servers with
  | [] => ret []
  | server :: rest =>
      r <- total (query_server server) ;;
      rs <- query_multiple_servers rest ;;
      ret (r :: rs)
  end.

(** [TimeConsensusEngine(max_outlier_deviation_ms, min_sources,
    max_disagreement_ms)], as [server.py] constructs it (lines 24-28). *)
Record TimeConsensusEngine := {
  engine_max_outlier_deviation_ms : float;
  engine_min_sources : Z;
  engine_max_disagreement_ms : float
}.

Variable engine : TimeConsensusEngine.

(** What the spec leaves open: the "large sentinel value" of the fallback,
    the texts of two warnings, the tag of the single-source tier (the spec
    names a single-source tag; [ConsensusMethod] of [models.py] has no such
    member, so the tier's tag is whichever member is given here) and the
    renderings of a timestamp that fill [iso8601_time], [epoch_ms] and
    [system_time] of [TimeConsensus]. *)
Variable fallback_error_ms : float.
Variable reduced_confidence_warning : Z -> string.
Variable disagreement_warning : float -> string.
Variable single_source_tag : ConsensusMethod.
Variable iso_of_timestamp : float -> string.
Variable ms_of_timestamp : float -> Z.

(** Sorting floats, for the median. *)
Fixpoint insert_sorted (x : float) (l : list float) : list float :=
  match l with
  | [] => [x]
  | y :: l' => if (x <=? y)%float then x :: l else y :: insert_sorted x l'
  end.

Definition sort (l : list float) : list float := fold_right insert_sorted [] l.

(** The median: the middle item of the sorted list, or the mean of the two
    middle items. *)
Definition median (l : list float) : float :=
  let s := sort l in
  let n := List.length s in
  if Nat.even n
  then ((nth (n / 2 - 1) s 0 + nth (n / 2) s 0) / 2)%float
  else nth (n / 2) s 0%float.

Definition fmax (a b : float) : float := if (a <? b)%float then b else a.
Definition fmin (a b : float) : float := if (b <? a)%float then b else a.

Definition maximum (l : list float) : float :=
  match l with [] => 0%float | x :: l' => fold_left fmax l' x end.
Definition minimum (l : list float) : float :=
  match l with [] => 0%float | x :: l' => fold_left fmin l' x end.

(** The spread of a list of timestamps, in milliseconds. *)
Definition spread_ms (timestamps : list float) : float :=
  ((maximum timestamps - minimum timestamps) * 1000)%float.

(** Step 4b: a sample is an outlier when its absolute deviation from the
    median, in milliseconds, exceeds the threshold; "if rejection would
    leave zero samples, skip rejection". *)
Definition is_outlier (med : float) (r : NTPResponse) : bool :=
  (engine_max_outlier_deviation_ms engine <? abs (ntp_timestamp r - med) * 1000)%float.

Definition reject_outliers (successes : list NTPResponse) : list NTPResponse :=
  let med := median (map ntp_timestamp successes) in
  match filter (fun r => negb (is_outlier med r)) successes with
  | [] => successes
  | retained => retained
  end.

(** Step 5: the reported sample of a response: "exactly one of {success
    fields, failure fields} is populated". *)
Definition sample_of (r : NTPResponse) : SourceSample :=
  if ntp_success r then
    {| ss_server := ntp_server r; ss_success := true;
       ss_timestamp := Some (ntp_timestamp r); ss_rtt_ms := Some (ntp_rtt_ms r);
       ss_stratum := Some (ntp_stratum r); ss_error := None |}
  else
    {| ss_server := ntp_server r; ss_success := false;
       ss_timestamp := None; ss_rtt_ms := None;
       ss_stratum := None; ss_error := ntp_error r |}.

(** Steps 2-4: the method, the reconciled timestamp, the estimated error,
    the samples counted as used and the warnings. *)
Definition reconcile (system_time : float) (responses : list NTPResponse)
  : ConsensusMethod * float * float * list NTPResponse * list string :=
  let successes := filter ntp_success responses in
  match successes with
  | [] =>
      (SYSTEM_FALLBACK, system_time, fallback_error_ms, successes,
       ["all sources failed, using system clock"])
  | first :: _ =>
      if Z.of_nat (List.length successes) <? engine_min_sources engine then
        (single_source_tag, ntp_timestamp first, ntp_rtt_ms first, successes,
         [reduced_confidence_warning (Z.of_nat (List.length successes))])
      else
        let retained := reject_outliers successes in
        let timestamps := map ntp_timestamp retained in
        let spread := spread_ms timestamps in
        (MEDIAN_WITH_OUTLIER_REJECTION,
         median timestamps,
         fmax (median (map ntp_rtt_ms retained) / 2) (spread / 2),
         retained,
         if (engine_max_disagreement_ms engine <? spread)%float
         then [disagreement_warning spread] else [])
  end.

(** Modelled from the spec: the Consensus Calculator of [consensus.py]
    (spec 4.3, steps 1 to 6), "a pure function of its input sample set plus
    the current system clock reading". *)
Definition compute_consensus (responses : list NTPResponse) : M World TimeConsensus :=
  system_time <- total time ;;
  let '(method, timestamp, estimated_error_ms, used, warnings) :=
    reconcile system_time responses in
  ret {| tc_timestamp := timestamp;
         tc_iso8601_time := iso_of_timestamp timestamp;
         tc_epoch_ms := ms_of_timestamp timestamp;
         tc_sources_used := Z.of_nat (List.length used);
         tc_total_sources := Z.of_nat (List.length responses);
         tc_consensus_method := method;
         tc_estimated_error_ms := estimated_error_ms;
         tc_source_samples := map sample_of responses;
         tc_warnings := warnings;
         tc_system_time := iso_of_timestamp system_time;
         tc_system_delta_ms := ((system_time - timestamp) * 1000)%float |}.

End Engine.

End SpecModel.

(** ** A runtime to run the model on

    The tests of the repository patch the clock with a scripted function
    and the client with canned responses.  This runtime does the same: the
    world is the script of the clock's next readings, the network is a table
    of responses.  [datetime] is modelled on CPython's: a UTC instant in
    microseconds with the UTC offset it is shown at, between the years 1
    and 9999.  The zones are a short table of fixed offsets, standing for
    the IANA database. *)

Module Sim.

(** *** Decimal output *)

Definition decimal (n : Z) : string := NilZero.string_of_uint (N.to_uint (Z.to_N n)).

(** [n] written with at least [width] digits, as ["%0{width}d"] writes a
    natural number. *)
Fixpoint zeros (k : nat) : string :=
  match k with O => "" | S k' => String "0" (zeros k') end.

Definition padded (width : nat) (n : Z) : string :=
  let s := decimal n in
  zeros (width - String.length s) ++ s.

(** *** Rounding a float to an integer, half to even *)

Definition round_half_even_pos (m : positive) (e : Z) : Z :=
  match e with
  | Zneg p =>
      let q := Z.shiftr (Z.pos m) (Z.pos p) in
      let r := Z.pos m - Z.shiftl q (Z.pos p) in
      let half := Z.shiftl 1 (Z.pos p - 1) in
      match r ?= half with
      | Lt => q
      | Gt => q + 1
      | Eq => if Z.even q then q else q + 1
      end
  | _ => Z.shiftl (Z.pos m) e
  end.

Definition round_half_even (x : spec_float) : option Z :=
  match x with
  | S754_zero _ => Some 0
  | S754_finite s m e => Some (cond_Zopp s (round_half_even_pos m e))
  | S754_infinity _ | S754_nan => None
  end.

(** [f"{x:.1f}"]: the decimal expansion of the float's exact value, rounded
    half to even at the first decimal. *)
Definition format_1f (x : float) : string :=
  match Prim2SF x with
  | S754_nan => "nan"
  | S754_infinity s => if s then "-inf" else "inf"
  | S754_zero s => if s then "-0.0" else "0.0"
  | S754_finite s m e =>
      let tenths := round_half_even_pos (10 * m) e in
      (if s then "-" else "") ++ decimal (tenths / 10) ++ "." ++ decimal (tenths mod 10)
  end.

(** *** datetime *)

(** An aware datetime: the instant, in microseconds since the epoch, and
    the UTC offset of its zone, in seconds. *)
Record datetime := { instant_us : Z; utcoffset : Z }.

(** A zone: here, a fixed offset in seconds. *)
Definition tzinfo := Z.

(** The civil date of a day number (days since 1970-01-01) in the
    proleptic Gregorian calendar. *)
Definition civil_from_days (days : Z) : Z * Z * Z :=
  let z := days + 719468 in
  let era := z / 146097 in
  let doe := z - era * 146097 in
  let yoe := (doe - doe / 1460 + doe / 36524 - doe / 146096) / 365 in
  let doy := doe - (365 * yoe + yoe / 4 - yoe / 100) in
  let mp := (5 * doy + 2) / 153 in
  let d := doy - (153 * mp + 2) / 5 + 1 in
  let m := if mp <? 10 then mp + 3 else mp - 9 in
  let y := yoe + era * 400 in
  (if m <=? 2 then y + 1 else y, m, d).

(** The seconds of 0001-01-01T00:00:00 and of 9999-12-31T23:59:59. *)
Definition min_seconds : Z := -62135596800.
Definition max_seconds : Z := 253402300799.

Definition year_of_seconds (seconds : Z) : Z :=
  let '(y, _, _) := civil_from_days (seconds / 86400) in y.

Definition check_range (seconds : Z) : Py.result unit :=
  if (min_seconds <=? seconds) && (seconds <=? max_seconds) then Py.ok tt
  else Py.raise ("year " ++ (if seconds <? 0 then "-" else "")
                 ++ decimal (Z.abs (year_of_seconds seconds)) ++ " is out of range").

(** [datetime.fromtimestamp(t, tz=UTC)]: the fraction of [t] is scaled to
    microseconds in floating point and rounded half to even; a carry goes
    to the seconds. *)
Definition fromtimestamp_utc (t : float) : Py.result datetime :=
  match Py.trunc (Prim2SF t) with
  | None =>
      if is_nan t then Py.raise "Invalid value NaN (not a number)"
      else Py.raise "timestamp out of range for platform time_t"
  | Some intpart =>
      let floatpart := (t - SF2Prim (binary_normalize prec emax intpart 0 false))%float in
      match round_half_even (Prim2SF (floatpart * 1000000)%float) with
      | None => Py.raise "timestamp out of range for platform time_t"
      | Some us =>
          let '(seconds, us) :=
            if 1000000 <=? us then (intpart + 1, us - 1000000)
            else if us <? 0 then (intpart - 1, us + 1000000)
            else (intpart, us) in
          and_then (check_range seconds) (fun _ =>
          Py.ok {| instant_us := seconds * 1000000 + us; utcoffset := 0 |})
      end
  end.

(** The zones this runtime knows. *)
Definition zones : list (string * tzinfo) :=
  [("UTC", 0); ("Etc/UTC", 0); ("Etc/GMT+5", -18000); ("Etc/GMT-9", 32400);
   ("Etc/GMT-1", 3600)].

Fixpoint lookup (key : string) (table : list (string * tzinfo)) : option tzinfo :=
  match table with
  | [] => None
  | (k, v) :: rest => if String.eqb k key then Some v else lookup key rest
  end.

(** [ZoneInfo(key)]; [str()] of the [ZoneInfoNotFoundError], a [KeyError],
    quotes its message. *)
Definition ZoneInfo (key : string) : Py.result tzinfo :=
  match lookup key zones with
  | Some tz => Py.ok tz
  | None => Py.raise ("'No time zone found with key " ++ key ++ "'")
  end.

(** [dt.astimezone(tz)]: the same instant at the offset of [tz]. *)
Definition astimezone (dt : datetime) (tz : tzinfo) : Py.result datetime :=
  if (min_seconds <=? (instant_us dt) / 1000000 + tz)
     && ((instant_us dt) / 1000000 + tz <=? max_seconds)
  then Py.ok {| instant_us := instant_us dt; utcoffset := tz |}
  else Py.raise "date value out of range".

(** [dt.isoformat()] *)
Definition isoformat (dt : datetime) : string :=
  let local_us := instant_us dt + utcoffset dt * 1000000 in
  let seconds := local_us / 1000000 in
  let us := local_us mod 1000000 in
  let '(y, m, d) := civil_from_days (seconds / 86400) in
  let sod := seconds mod 86400 in
  let off := Z.abs (utcoffset dt) in
  padded 4 y ++ "-" ++ padded 2 m ++ "-" ++ padded 2 d ++ "T"
  ++ padded 2 (sod / 3600) ++ ":" ++ padded 2 (sod / 60 mod 60) ++ ":"
  ++ padded 2 (sod mod 60)
  ++ (if us =? 0 then "" else "." ++ padded 6 us)
  ++ (if utcoffset dt <? 0 then "-" else "+")
  ++ padded 2 (off / 3600) ++ ":" ++ padded 2 (off / 60 mod 60)
  ++ (if off mod 60 =? 0 then "" else ":" ++ padded 2 (off mod 60)).

(** *** The scripted world *)

(** The clock's next readings; a clock with no script left reads [0]. *)
Definition World := list float.

Definition time (w : World) : float * World :=
  match w with
  | [] => (0%float, [])
  | t :: w' => (t, w')
  end.

(** The network: the response of each server. *)
Definition Network := string -> NTPResponse.

Definition query_server (net : Network) (server : string) (w : World)
  : NTPResponse * World := (net server, w).

(** A successful and a failed response. *)
Definition success (server : string) (timestamp rtt_ms : float) (stratum : Z)
  : NTPResponse :=
  {| ntp_server := server; ntp_timestamp := timestamp; ntp_rtt_ms := rtt_ms;
     ntp_stratum := stratum; ntp_success := true; ntp_error := None;
     ntp_error_type := None |}.

Definition failure (server : string) (error : string) (kind : NTPError)
  : NTPResponse :=
  {| ntp_server := server; ntp_timestamp := 0%float; ntp_rtt_ms := 0%float;
     ntp_stratum := 0; ntp_success := false; ntp_error := Some error;
     ntp_error_type := Some kind |}.

(** The engine of [server.py] (lines 24-28) on this runtime; the fields of
    [TimeConsensus] that render the timestamp use the runtime's [datetime]
    and [int]. *)
Definition engine_of (config : Config) : SpecModel.TimeConsensusEngine :=
  {| SpecModel.engine_max_outlier_deviation_ms := max_outlier_deviation_ms config;
     SpecModel.engine_min_sources := min_sources config;
     SpecModel.engine_max_disagreement_ms := max_disagreement_ms config |}.

Definition iso_of_timestamp (t : float) : string :=
  match fromtimestamp_utc t with
  | inr dt => isoformat dt
  | inl _ => ""
  end.

Definition ms_of_timestamp (t : float) : Z :=
  match Py.int (t * 1000)%float with
  | inr ms => ms
  | inl _ => 0
  end.

Definition compute_consensus (config : Config)
  : list NTPResponse -> M World TimeConsensus :=
  SpecModel.compute_consensus World time (engine_of config)
    infinity
    (fun n => "Only " ++ decimal n ++ " source(s) available, reduced confidence")
    (fun spread => "Sources disagree by " ++ format_1f spread ++ "ms")
    MEDIAN_WITH_OUTLIER_REJECTION
    iso_of_timestamp ms_of_timestamp.

Definition query_multiple_servers (net : Network)
  : list string -> M World (list NTPResponse) :=
  SpecModel.query_multiple_servers World (query_server net).

(** The three tools of [server.py] on this runtime. *)
Definition get_time_utc (config : Config) (net : Network)
  : AccuracyMode -> bool -> M World TimeResponse :=
  Server.get_time_utc World time config (query_multiple_servers net)
    (compute_consensus config) datetime fromtimestamp_utc isoformat format_1f.

Definition get_time_for_timezone (config : Config) (net : Network)
  : string -> AccuracyMode -> bool -> M World TimezoneResponse :=
  Server.get_time_for_timezone World time config (query_multiple_servers net)
    (compute_consensus config) datetime tzinfo fromtimestamp_utc ZoneInfo
    astimezone isoformat format_1f.

Definition compare_system_clock (config : Config) (net : Network)
  : AccuracyMode -> M World ClockComparisonResponse :=
  Server.compare_system_clock World time config (query_multiple_servers net)
    (compute_consensus config) datetime fromtimestamp_utc isoformat format_1f.

(** A configuration of seven servers, four of them for the fast mode. *)
Definition config : Config :=
  {| ntp_servers := ["time.cloudflare.com"; "time.google.com"; "time.apple.com";
                     "0.pool.ntp.org"; "1.pool.ntp.org"; "2.pool.ntp.org";
                     "3.pool.ntp.org"];
     ntp_timeout := 2%float;
     max_outlier_deviation_ms := 5000%float;
     min_sources := 3;
     max_disagreement_ms := 250%float;
     fast_mode_server_count := 4 |}.

(** A network where the first server times out and the others answer
    within a few milliseconds of 2023-11-14T22:13:20Z. *)
Definition net : Network := fun server =>
  if String.eqb server "time.cloudflare.com"
  then failure server "Timeout" TIMEOUT
  else if String.eqb server "time.google.com"
  then success server 1700000000.005%float 20%float 1
  else if String.eqb server "time.apple.com"
  then success server 1700000000.010%float 30%float 1
  else success server 1700000000.000%float 25%float 2.

(** A network where nothing answers. *)
Definition dead_net : Network := fun server => failure server "Timeout" TIMEOUT.

(** A clock script: the start of the query, the engine's reading 140 ms
    later, the end of the query at 150 ms, the reading after compensation. *)
Definition script : World :=
  [1700000000.25; 1700000000.39; 1700000000.40; 1700000000.4001]%float.

(** The query phase on this runtime. *)
Definition queried (config : Config) (net : Network)
  : AccuracyMode -> World -> float -> TimeConsensus -> float -> World -> Prop :=
  Server.queried World time config (query_multiple_servers net) (compute_consensus config).



(** A configuration without servers. *)
Definition no_servers : Config :=
  {| ntp_servers := [];
     ntp_timeout := 2%float;
     max_outlier_deviation_ms := 5000%float;
     min_sources := 3;
     max_disagreement_ms := 250%float;
     fast_mode_server_count := 4 |}.

(** A network and a clock in the last second of the year 9999: the servers
    answer 9999-12-31T23:59:59.9Z and the query takes 150 ms. *)
Definition last_second_net : Network := fun server =>
  success server 253402300799.9%float 20%float 1.

Definition last_second_script : World :=
  [253402300799.25; 253402300799.39; 253402300799.40; 253402300799.4001]%float.



End Sim.

(** ** Specification floats

    A float that is a number of a given sign: a zero, a finite float or an
    infinity. *)

Module SF.

Definition signed (s : bool) (x : spec_float) : Prop :=
  match x with
  | S754_zero s' | S754_infinity s' | S754_finite s' _ _ => s' = s
  | S754_nan => False
  end.

End SF.

(** * Properties *)

(** ** The order of binary64 floats

    [<?] and [<=?] on floats are those of [SFcompare] on their
    specifications; a NaN compares with nothing. *)

Module F64.

Lemma SFcompare_swap (x y : spec_float) :
  SFcompare y x = option_map CompOpp (SFcompare x y).
Proof.
  destruct x as [sx|sx| |sx mx ex], y as [sy|sy| |sy my ey]; simpl;
    try destruct sx; try destruct sy; try reflexivity;
    rewrite (Z.compare_antisym ex ey); destruct (ex ?= ey); simpl;
    try reflexivity;
    change (Pos.compare_cont Eq my mx) with (Pos.compare my mx);
    change (Pos.compare_cont Eq mx my) with (Pos.compare mx my);
    rewrite (Pos.compare_antisym mx my);
    try rewrite CompOpp_involutive; reflexivity.
Qed.

Ltac order_cases :=
  repeat match goal with
  | |- context [(?a ?= ?b)%Z] => destruct (Z.compare_spec a b); simpl
  | |- context [Pos.compare_cont Eq ?a ?b] =>
      change (Pos.compare_cont Eq a b) with (Pos.compare a b);
      destruct (Pos.compare_spec a b); simpl
  | H : context [(?a ?= ?b)%Z] |- _ => destruct (Z.compare_spec a b); simpl in H
  | H : context [Pos.compare_cont Eq ?a ?b] |- _ =>
      change (Pos.compare_cont Eq a b) with (Pos.compare a b) in H;
      destruct (Pos.compare_spec a b); simpl in H
  end.

Lemma SFleb_trans (x y z : spec_float) :
  SFleb x y = true -> SFleb y z = true -> SFleb x z = true.
Proof.
  unfold SFleb.
  destruct x as [sx|sx| |sx mx ex], y as [sy|sy| |sy my ey],
    z as [sz|sz| |sz mz ez]; simpl;
    try destruct sx; try destruct sy; try destruct sz; simpl;
    try reflexivity; try discriminate; intros Hxy Hyz;
    order_cases; try reflexivity; try discriminate; try lia.
Qed.

Lemma SFleb_not_SFltb (x y : spec_float) :
  SFleb x y = true -> SFltb y x = false.
Proof.
  unfold SFleb, SFltb. rewrite (SFcompare_swap x y).
  destruct (SFcompare x y) as [[ | | ]|]; simpl; congruence.
Qed.

Lemma SFltb_SFleb (x y : spec_float) :
  SFltb x y = true -> SFleb x y = true.
Proof.
  unfold SFleb, SFltb. destruct (SFcompare x y) as [[ | | ]|]; congruence.
Qed.

Lemma leb_trans (x y z : float) :
  (x <=? y)%float = true -> (y <=? z)%float = true -> (x <=? z)%float = true.
Proof. rewrite !leb_spec. apply SFleb_trans. Qed.

Lemma leb_not_ltb (x y : float) :
  (x <=? y)%float = true -> (y <? x)%float = false.
Proof. rewrite leb_spec, ltb_spec. apply SFleb_not_SFltb. Qed.

Lemma ltb_leb (x y : float) :
  (x <? y)%float = true -> (x <=? y)%float = true.
Proof. rewrite leb_spec, ltb_spec. apply SFltb_SFleb. Qed.

Lemma ltb_not_leb (x y : float) :
  (x <? y)%float = true -> (y <=? x)%float = false.
Proof.
  intros H. destruct (y <=? x)%float eqn:E; [|reflexivity].
  apply leb_not_ltb in E. congruence.
Qed.

(** *** Rounding

    [binary_round] and [binary_round_aux], which every arithmetic operation
    ends with, seen as operations on integers. *)

(** The number of binary digits of a positive number. *)
Lemma digits2_pos_bounds (p : positive) :
  2 ^ (Z.pos (digits2_pos p) - 1) <= Z.pos p < 2 ^ Z.pos (digits2_pos p).
Proof.
  induction p as [p IH|p IH|]; cbn [digits2_pos].
  - rewrite Pos2Z.inj_succ.
    replace (Z.succ (Z.pos (digits2_pos p)) - 1) with (Z.succ (Z.pos (digits2_pos p) - 1)) by lia.
    rewrite !Z.pow_succ_r by lia. lia.
  - rewrite Pos2Z.inj_succ.
    replace (Z.succ (Z.pos (digits2_pos p)) - 1) with (Z.succ (Z.pos (digits2_pos p) - 1)) by lia.
    rewrite !Z.pow_succ_r by lia. lia.
  - simpl. lia.
Qed.

(** Shifting right by one keeps a non-negative mantissa's half. *)
Lemma shr_1_m (mrs : shr_record) :
  0 <= shr_m mrs -> shr_m (shr_1 mrs) = shr_m mrs / 2.
Proof.
  destruct mrs as [m r s]. cbn [shr_m]. intros Hm.
  rewrite <- Z.div2_div.
  destruct m as [|[p|p|]|p]; try reflexivity. lia.
Qed.

Lemma pow2_pos (n : Z) : 0 <= n -> 0 < 2 ^ n.
Proof. intros. apply Z.pow_pos_nonneg; lia. Qed.

Lemma iter_shr_1_m (n : positive) : forall mrs,
  0 <= shr_m mrs ->
  shr_m (iter_pos shr_1 n mrs) = shr_m mrs / 2 ^ Z.pos n.
Proof.
  induction n as [n IH|n IH|]; intros mrs Hm; cbn [iter_pos].
  - assert (H1 : 0 <= shr_m (shr_1 mrs))
      by (rewrite shr_1_m by assumption; apply Z.div_pos; lia).
    assert (H2 : 0 <= shr_m (iter_pos shr_1 n (shr_1 mrs)))
      by (rewrite IH by assumption; apply Z.div_pos; [|apply pow2_pos]; lia).
    rewrite IH, IH, shr_1_m by assumption.
    pose proof (pow2_pos (Z.pos n) ltac:(lia)) as Hp.
    rewrite !Z.div_div by lia.
    replace (Z.pos n~1) with (1 + Z.pos n + Z.pos n) by lia.
    rewrite !Z.pow_add_r by lia. rewrite Z.pow_1_r. f_equal. ring.
  - assert (H2 : 0 <= shr_m (iter_pos shr_1 n mrs))
      by (rewrite IH by assumption; apply Z.div_pos; [|apply pow2_pos]; lia).
    rewrite IH, IH by assumption.
    pose proof (pow2_pos (Z.pos n) ltac:(lia)) as Hp.
    rewrite !Z.div_div by lia.
    replace (Z.pos n~0) with (Z.pos n + Z.pos n) by lia.
    rewrite !Z.pow_add_r by lia. f_equal.
  - rewrite shr_1_m by assumption. reflexivity.
Qed.

(** Rounding to nearest moves a mantissa up by at most one. *)
Lemma round_nearest_even_bounds (m : Z) (l : location) :
  m <= round_nearest_even m l <= m + 1.
Proof.
  destruct l as [|[ | | ]]; cbn [round_nearest_even];
    try destruct (Z.even m); lia.
Qed.

(** The shift of [shr] on a non-negative mantissa. *)
Lemma shr_m_shift (mrs : shr_record) (e n : Z) :
  0 <= shr_m mrs ->
  shr_m (fst (shr mrs e n)) = shr_m mrs / 2 ^ Z.max 0 n /\
  snd (shr mrs e n) = e + Z.max 0 n.
Proof.
  intros Hm. destruct n as [|p|p]; cbn [shr fst snd].
  - rewrite Z.max_l, Z.pow_0_r, Z.div_1_r by lia. split; [reflexivity|lia].
  - rewrite Z.max_r by lia. split; [apply iter_shr_1_m; exact Hm|reflexivity].
  - rewrite Z.max_l, Z.pow_0_r, Z.div_1_r by lia. split; [reflexivity|lia].
Qed.

Lemma shr_noop (mrs : shr_record) (e n : Z) :
  n <= 0 -> shr mrs e n = (mrs, e).
Proof. destruct n; try reflexivity. lia. Qed.

Lemma fexp_eq (x : Z) : fexp prec emax x = Z.max (x - 53) (-1074).
Proof. reflexivity. Qed.

(** The shape of a rounded positive mantissa: it is shifted by [n1] to the
    exponent of its magnitude, moved up by at most one, and shifted by [n2]
    when that carried into a new digit. *)
Lemma binary_round_aux_shape (sx : bool) (m : positive) (e : Z) :
  exists q' q'' e'' n1 n2,
    binary_round_aux prec emax sx (Z.pos m) e loc_Exact =
      match q'' with
      | Z0 => S754_zero sx
      | Z.pos m' =>
          if e'' <=? 971 then S754_finite sx m' e'' else S754_infinity sx
      | Z.neg _ => S754_nan
      end /\
    n1 = Z.max 0 (Z.max (Z.pos (digits2_pos m) + e - 53) (-1074) - e) /\
    Z.pos m / 2 ^ n1 <= q' <= Z.pos m / 2 ^ n1 + 1 /\
    (n1 = 0 -> q' = Z.pos m) /\
    n2 = Z.max 0 (Z.max (Zdigits2 q' + (e + n1) - 53) (-1074) - (e + n1)) /\
    q'' = q' / 2 ^ n2 /\
    e'' = e + n1 + n2.
Proof.
  unfold binary_round_aux, shr_fexp. cbn [Zdigits2 shr_record_of_loc].
  rewrite fexp_eq.
  set (n := Z.max (Z.pos (digits2_pos m) + e - 53) (-1074) - e).
  set (mrs0 := {| shr_m := Z.pos m; shr_r := false; shr_s := false |}).
  destruct (shr_m_shift mrs0 e n) as [Hq He]; [cbn; lia|].
  destruct (shr mrs0 e n) as [mrs' e'] eqn:Hshr. cbn [fst snd] in Hq, He.
  set (q' := round_nearest_even (shr_m mrs') (loc_of_shr_record mrs')).
  pose proof (round_nearest_even_bounds (shr_m mrs') (loc_of_shr_record mrs')) as Hq'.
  fold q' in Hq'.
  assert (Hq0 : 0 <= shr_m mrs').
  { rewrite Hq. apply Z.div_pos; [cbn; lia|apply pow2_pos; lia]. }
  rewrite fexp_eq.
  set (n' := Z.max (Zdigits2 q' + e' - 53) (-1074) - e').
  set (mrs1 := {| shr_m := q'; shr_r := false; shr_s := false |}).
  destruct (shr_m_shift mrs1 e' n') as [Hq2 He2]; [cbn; lia|].
  destruct (shr mrs1 e' n') as [mrs'' e''] eqn:Hshr2. cbn [fst snd] in Hq2, He2.
  exists q', (shr_m mrs''), e'', (Z.max 0 n), (Z.max 0 n').
  subst mrs0 mrs1. cbn [shr_m] in Hq, Hq2.
  split; [reflexivity|]. split; [reflexivity|].
  split; [rewrite <- Hq; exact Hq'|].
  split.
  { intros Hn0. rewrite shr_noop in Hshr by lia.
    injection Hshr as <- _. reflexivity. }
  split; [subst n' e'; reflexivity|].
  split; [exact Hq2|lia].
Qed.

Lemma SFleb_finite (mx m : positive) (ex e : Z) :
  ex < e \/ (ex = e /\ Z.pos mx <= Z.pos m) ->
  SFleb (S754_finite false mx ex) (S754_finite false m e) = true.
Proof.
  unfold SFleb, SFcompare. intros [H|[-> H]].
  - apply Z.compare_lt_iff in H. rewrite H. reflexivity.
  - rewrite Z.compare_refl.
    change (Pos.compare_cont Eq mx m) with (Pos.compare mx m).
    destruct (Pos.compare_spec mx m); try reflexivity. lia.
Qed.

(** What a valid finite float says of its mantissa and exponent. *)
Lemma bounded_inv (m : positive) (e : Z) :
  bounded prec emax m e = true ->
  e = Z.max (Z.pos (digits2_pos m) + e - 53) (-1074) /\ e <= 971.
Proof.
  unfold bounded, canonical_mantissa, fexp, SpecFloat.emin, prec, emax.
  intros H. apply andb_true_iff in H. destruct H as [H1 H2].
  apply Z.eqb_eq in H1. apply Z.leb_le in H2.
  change IntDef.Z.max with Z.max in H1. lia.
Qed.

(** A mantissa that is larger at a common exponent has at least as many
    digits above that exponent. *)
Lemma digits_le (mx M : positive) (k : Z) :
  0 <= k ->
  Z.pos mx * 2 ^ k <= Z.pos M ->
  Z.pos (digits2_pos mx) + k <= Z.pos (digits2_pos M).
Proof.
  intros Hk Hle.
  destruct (digits2_pos_bounds mx) as [Hx _].
  destruct (digits2_pos_bounds M) as [_ HM].
  destruct (Z.le_gt_cases (Z.pos (digits2_pos mx) + k) (Z.pos (digits2_pos M)))
    as [H|H]; [exact H|exfalso].
  assert (Hpow : 2 ^ Z.pos (digits2_pos M) <= 2 ^ (Z.pos (digits2_pos mx) - 1 + k))
    by (apply Z.pow_le_mono_r; lia).
  rewrite Z.pow_add_r in Hpow by lia.
  pose proof (pow2_pos k Hk).
  assert (2 ^ (Z.pos (digits2_pos mx) - 1) * 2 ^ k <= Z.pos mx * 2 ^ k)
    by (apply Z.mul_le_mono_nonneg_r; lia).
  lia.
Qed.


Lemma digits_of_lt (p : positive) (k : Z) :
  0 <= k -> Z.pos p < 2 ^ k -> Z.pos (digits2_pos p) <= k.
Proof.
  intros Hk Hlt. destruct (digits2_pos_bounds p) as [Hlo _].
  destruct (Z.le_gt_cases (Z.pos (digits2_pos p)) k) as [H|H]; [exact H|exfalso].
  assert (2 ^ k <= 2 ^ (Z.pos (digits2_pos p) - 1)) by (apply Z.pow_le_mono_r; lia).
  lia.
Qed.

Lemma digits_of_ge (p : positive) (k : Z) :
  0 <= k -> 2 ^ k <= Z.pos p -> k < Z.pos (digits2_pos p).
Proof.
  intros Hk Hle. destruct (digits2_pos_bounds p) as [_ Hhi].
  destruct (Z.lt_ge_cases k (Z.pos (digits2_pos p))) as [H|H]; [exact H|exfalso].
  assert (2 ^ Z.pos (digits2_pos p) <= 2 ^ k) by (apply Z.pow_le_mono_r; lia).
  lia.
Qed.

(** The first shift leaves between one and 53 digits. *)
Lemma first_stage (M : positive) (n1 : Z) :
  0 <= n1 ->
  Z.pos (digits2_pos M) - 53 <= n1 <= Z.pos (digits2_pos M) - 1 ->
  1 <= Z.pos M / 2 ^ n1 < 2 ^ 53.
Proof.
  intros Hn [Hlo Hhi].
  destruct (digits2_pos_bounds M) as [HM HM'].
  pose proof (pow2_pos n1 Hn) as Hp.
  split.
  - apply Z.div_le_lower_bound; [exact Hp|]. rewrite Z.mul_1_r.
    transitivity (2 ^ (Z.pos (digits2_pos M) - 1)); [|exact HM].
    apply Z.pow_le_mono_r; lia.
  - apply Z.div_lt_upper_bound; [exact Hp|].
    rewrite <- Z.pow_add_r by lia.
    apply Z.lt_le_trans with (1 := HM').
    apply Z.pow_le_mono_r; lia.
Qed.

(** The second shift: none below 54 digits, one digit at [2^53]. *)
Lemma second_stage (pq : positive) (e1 n2 : Z) :
  -1074 <= e1 ->
  n2 = Z.max 0 (Z.max (Z.pos (digits2_pos pq) + e1 - 53) (-1074) - e1) ->
  (Z.pos pq < 2 ^ 53 -> n2 = 0) /\
  (Z.pos pq = 2 ^ 53 -> n2 = 1) /\
  (n2 <> 0 -> 0 <= n2 /\ 2 ^ 52 <= Z.pos pq / 2 ^ n2).
Proof.
  intros He Hn2.
  assert (Hn : n2 = Z.max 0 (Z.pos (digits2_pos pq) - 53)) by lia.
  clear Hn2 He.
  destruct (digits2_pos_bounds pq) as [Hlo Hhi].
  split; [|split].
  - intros Hlt. pose proof (digits_of_lt pq 53 ltac:(lia) Hlt). lia.
  - intros Heq.
    assert (H1 : Z.pos (digits2_pos pq) <= 54)
      by (apply digits_of_lt; [lia|]; rewrite Heq; reflexivity).
    assert (H2 : 53 < Z.pos (digits2_pos pq))
      by (apply digits_of_ge; [lia|]; rewrite Heq; reflexivity).
    lia.
  - intros Hnz. assert (Hn' : n2 = Z.pos (digits2_pos pq) - 53) by lia.
    split; [lia|].
    apply Z.div_le_lower_bound; [apply pow2_pos; lia|].
    rewrite <- Z.pow_add_r by lia.
    replace (n2 + 52) with (Z.pos (digits2_pos pq) - 1) by lia. exact Hlo.
Qed.

(** Rounding a mantissa that is at least a valid float, at a common
    exponent, gives at least that float. *)
Lemma binary_round_ge (mx M : positive) (ex ez : Z) :
  bounded prec emax mx ex = true ->
  -1074 <= ez -> ez <= ex ->
  Z.pos mx * 2 ^ (ex - ez) <= Z.pos M ->
  SFleb (S754_finite false mx ex) (binary_round prec emax false M ez) = true.
Proof.
  intros Hvalid Hez Hex Hle.
  destruct (bounded_inv _ _ Hvalid) as [Hcanon Hmax]. clear Hvalid.
  pose proof (digits_le mx M (ex - ez) ltac:(lia) Hle) as Hd.
  assert (Hqx : Z.pos mx <= Z.pos M / 2 ^ (ex - ez)).
  { apply Z.div_le_lower_bound; [apply pow2_pos; lia|].
    rewrite Z.mul_comm. exact Hle. }
  clear Hle.
  unfold binary_round, shl_align. rewrite fexp_eq.
  destruct (binary_round_aux_shape false M ez)
    as (q' & q'' & e'' & n1 & n2 & Hshape & Hn1 & Hq' & _ & Hn2 & Hq'' & He'').
  pose proof (first_stage M n1) as Hfirst.
  remember (Z.pos (digits2_pos M)) as d eqn:Hdd.
  remember (Z.pos (digits2_pos mx)) as dx eqn:Hdx.
  assert (Hd1 : 1 <= d) by (subst d; lia).
  clear Hdd Hdx.
  remember (Z.max (d + ez - 53) (-1074)) as f eqn:Hfdef.
  assert (Hn1' : n1 = f - ez) by lia.
  assert (Hf : ex <= f) by lia.
  assert (Halign : match f - ez with
                   | Z.neg s => (Pos.iter xO M s, f)
                   | _ => (M, ez)
                   end = (M, ez)).
  { destruct (f - ez) eqn:E; try reflexivity. lia. }
  rewrite Halign, Hshape. clear Halign Hshape.
  specialize (Hfirst ltac:(lia) ltac:(lia)).
  assert (Hqx' : ex = f -> Z.pos mx <= Z.pos M / 2 ^ n1).
  { intros E. replace n1 with (ex - ez) by lia. exact Hqx. }
  clear Hqx.
  remember (Z.pos M / 2 ^ n1) as q eqn:Hqdef. clear Hqdef.
  destruct Hfirst as [Hq1 _].
  destruct q' as [|pq|pq]; try lia.
  cbn [Zdigits2] in Hn2.
  destruct (second_stage pq (ez + n1) n2 ltac:(lia) Hn2) as (_ & _ & Hcarry).
  clear Hn2 Hn1 Hcanon.
  destruct (Z.eq_dec n2 0) as [Hz|Hnz].
  - (* no carry *)
    rewrite Hz, Z.pow_0_r, Z.div_1_r in Hq''. subst q''.
    destruct (e'' <=? 971); [|reflexivity].
    apply SFleb_finite.
    destruct (Z.eq_dec ex f) as [E|E]; [right|left; lia].
    specialize (Hqx' E). split; lia.
  - (* a carry: the mantissa keeps 53 digits at a larger exponent *)
    destruct (Hcarry Hnz) as [Hn2pos Hq3]. clear Hcarry.
    rewrite <- Hq'' in Hq3. clear Hq''.
    change (2 ^ 52) with 4503599627370496 in Hq3.
    destruct q'' as [|m''|m'']; try lia.
    destruct (e'' <=? 971); [|reflexivity].
    apply SFleb_finite. left. lia.
Qed.

Lemma shift_left_value (m : positive) (k : positive) :
  Z.pos (Pos.iter xO m k) = Z.pos m * 2 ^ Z.pos k.
Proof.
  change (Pos.iter xO m k) with (shift_pos k m).
  rewrite shift_pos_correct, Zpower_pos_nat, Zpower_nat_Z, positive_nat_Z.
  apply Z.mul_comm.
Qed.

(** The mantissa of a float aligned to a smaller exponent. *)
Lemma shl_align_value (m : positive) (e e' : Z) :
  e' <= e ->
  Z.pos (fst (shl_align m e e')) = Z.pos m * 2 ^ (e - e').
Proof.
  intros H. unfold shl_align.
  destruct (e' - e) as [|p|p] eqn:E; cbn [fst]; try lia.
  - replace (e - e') with 0 by lia. rewrite Z.pow_0_r, Z.mul_1_r. reflexivity.
  - rewrite shift_left_value. replace (e - e') with (Z.pos p) by lia. reflexivity.
Qed.

(** A mantissa aligned down to the exponent of its magnitude is rounded
    to itself. *)
Lemma binary_round_aux_exact (s : bool) (mz : positive) (f : Z) :
  -1074 <= f <= 971 ->
  f = Z.max (Z.pos (digits2_pos mz) + f - 53) (-1074) ->
  binary_round_aux prec emax s (Z.pos mz) f loc_Exact = S754_finite s mz f.
Proof.
  intros Hf Hcanon.
  destruct (binary_round_aux_shape s mz f)
    as (q' & q'' & e'' & n1 & n2 & -> & Hn1 & _ & Hexact & Hn2 & Hq'' & He'').
  assert (Hn10 : n1 = 0) by lia.
  rewrite (Hexact Hn10) in *. clear Hexact. cbn [Zdigits2] in Hn2.
  assert (Hn20 : n2 = 0) by lia.
  rewrite Hn20, Z.pow_0_r, Z.div_1_r in Hq''. subst q''.
  assert (He : e'' = f) by lia. rewrite He.
  destruct (Z.leb_spec f 971) as [_|Hbad]; [reflexivity|lia].
Qed.

(** Rounding a mantissa that is below a valid float, at a common exponent,
    gives a finite float at most that float. *)
Lemma binary_round_le (s : bool) (mx M : positive) (ex ez : Z) :
  bounded prec emax mx ex = true ->
  -1074 <= ez -> ez <= ex ->
  Z.pos M < Z.pos mx * 2 ^ (ex - ez) ->
  exists m e,
    binary_round prec emax s M ez = S754_finite s m e /\
    (e < ex \/ (e = ex /\ Z.pos m <= Z.pos mx)).
Proof.
  intros Hvalid Hez Hex Hlt.
  destruct (bounded_inv _ _ Hvalid) as [Hcanon Hmax]. clear Hvalid.
  pose proof (digits2_pos_bounds mx) as [Hmx Hmx'].
  pose proof (pow2_pos (ex - ez) ltac:(lia)) as Hpk.
  assert (Hd : Z.pos (digits2_pos M) <= Z.pos (digits2_pos mx) + (ex - ez)).
  { apply digits_of_lt; [lia|]. rewrite Z.pow_add_r by lia.
    apply Z.lt_le_trans with (1 := Hlt).
    apply Z.mul_le_mono_nonneg_r; [|apply Z.lt_le_incl; exact Hmx'].
    apply Z.lt_le_incl; exact Hpk. }
  assert (Hqx : Z.pos M / 2 ^ (ex - ez) < Z.pos mx).
  { apply Z.div_lt_upper_bound; [exact Hpk|]. rewrite Z.mul_comm. exact Hlt. }
  assert (Hmx53 : Z.pos mx < 2 ^ 53).
  { apply Z.lt_le_trans with (1 := Hmx'). apply Z.pow_le_mono_r; lia. }
  assert (Hnormal : -1074 < ex -> 2 ^ 52 <= Z.pos mx).
  { intros Hn. replace 52 with (Z.pos (digits2_pos mx) - 1) by lia. exact Hmx. }
  clear Hlt Hpk Hmx Hmx'.
  unfold binary_round. rewrite fexp_eq.
  remember (Z.max (Z.pos (digits2_pos M) + ez - 53) (-1074)) as f eqn:Hfdef.
  assert (Hf : f <= ex) by lia.
  destruct (Z.lt_ge_cases f ez) as [Hlow|Hhigh].
  - (* aligned down to the exponent of the magnitude: exact *)
    pose proof (shl_align_value M ez f ltac:(lia)) as Hmz.
    assert (Hez' : snd (shl_align M ez f) = f).
    { unfold shl_align. destruct (f - ez) eqn:E; try lia. reflexivity. }
    destruct (shl_align M ez f) as [mz ez']. cbn [fst snd] in Hmz, Hez'. subst ez'.
    pose proof (pow2_pos (ez - f) ltac:(lia)) as Hpz.
    assert (Hdz : Z.pos (digits2_pos mz) = Z.pos (digits2_pos M) + (ez - f)).
    { destruct (digits2_pos_bounds M) as [HM HM'].
      apply Z.le_antisymm.
      - apply digits_of_lt; [lia|]. rewrite Hmz, Z.pow_add_r by lia.
        apply Z.mul_lt_mono_pos_r; assumption.
      - apply digits_le; [lia|]. rewrite Hmz. apply Z.le_refl. }
    clear Hmz Hpz Hqx Hmx53 Hnormal.
    rewrite binary_round_aux_exact by lia.
    exists mz, f. split; [reflexivity|]. left. lia.
  - (* shifted up to the exponent of the magnitude *)
    assert (Halign : shl_align M ez f = (M, ez)).
    { unfold shl_align. destruct (f - ez) eqn:E; try reflexivity. lia. }
    rewrite Halign. clear Halign.
    destruct (binary_round_aux_shape s M ez)
      as (q' & q'' & e'' & n1 & n2 & -> & Hn1 & Hq' & _ & Hn2 & Hq'' & He'').
    pose proof (first_stage M n1) as Hfirst.
    remember (Z.pos (digits2_pos M)) as d eqn:Hdd.
    remember (Z.pos (digits2_pos mx)) as dx eqn:Hdx.
    assert (Hd1 : 1 <= d) by (subst d; lia).
    clear Hdd Hdx.
    assert (Hn1' : n1 = f - ez) by lia.
    specialize (Hfirst ltac:(lia) ltac:(lia)).
    assert (Hqx' : f = ex -> Z.pos M / 2 ^ n1 < Z.pos mx).
    { intros E. replace n1 with (ex - ez) by lia. exact Hqx. }
    clear Hqx.
    remember (Z.pos M / 2 ^ n1) as q eqn:Hqdef. clear Hqdef.
    change (2 ^ 53) with 9007199254740992 in *.
    change (2 ^ 52) with 4503599627370496 in *.
    destruct Hfirst as [Hq1 Hq53].
    destruct q' as [|pq|pq]; try lia.
    cbn [Zdigits2] in Hn2.
    destruct (second_stage pq (ez + n1) n2 ltac:(lia) Hn2) as (Hnocarry & Hcarry & _).
    change (2 ^ 53) with 9007199254740992 in *.
    clear Hn2 Hn1.
    destruct (Z.eq_dec (Z.pos pq) 9007199254740992) as [Hc|Hnc].
    + (* the carry into a 54th digit *)
      specialize (Hcarry Hc). clear Hnocarry.
      assert (Hfx : f < ex).
      { destruct (Z.eq_dec f ex) as [E|E]; [specialize (Hqx' E)|]; lia. }
      rewrite Hcarry, Hc in Hq''.
      change (9007199254740992 / 2 ^ 1) with 4503599627370496 in Hq''.
      subst q''.
      destruct (Z.leb_spec e'' 971) as [_|Hbad]; [|lia].
      eexists _, e''. split; [reflexivity|].
      destruct (Z.eq_dec e'' ex) as [E|E]; [right|left; lia].
      split; [exact E|]. apply Hnormal. lia.
    + specialize (Hnocarry ltac:(lia)). clear Hcarry.
      rewrite Hnocarry, Z.pow_0_r, Z.div_1_r in Hq''. subst q''.
      destruct (Z.leb_spec e'' 971) as [_|Hbad]; [|lia].
      exists pq, e''. split; [reflexivity|].
      destruct (Z.eq_dec f ex) as [E|E]; [right|left; lia].
      specialize (Hqx' E). split; lia.
Qed.

(** A rounded mantissa keeps its sign and is a number. *)
Lemma binary_round_aux_signed (s : bool) (m : positive) (e : Z) :
  SF.signed s (binary_round_aux prec emax s (Z.pos m) e loc_Exact).
Proof.
  destruct (binary_round_aux_shape s m e)
    as (q' & q'' & e'' & n1 & n2 & -> & Hn1 & Hq' & _ & Hn2 & Hq'' & He'').
  assert (H0 : 0 <= Z.pos m / 2 ^ n1)
    by (apply Z.div_pos; [apply Pos2Z.is_nonneg|apply pow2_pos; rewrite Hn1; apply Z.le_max_l]).
  assert (H1 : 0 <= q'').
  { rewrite Hq''. apply Z.div_pos.
    - apply Z.le_trans with (1 := H0). apply Hq'.
    - apply pow2_pos. rewrite Hn2. apply Z.le_max_l. }
  clear - H1.
  destruct q'' as [|m''|m'']; [reflexivity| |exfalso; apply H1; reflexivity].
  destruct (e'' <=? 971); reflexivity.
Qed.

Lemma binary_round_signed (s : bool) (m : positive) (e : Z) :
  SF.signed s (binary_round prec emax s m e).
Proof.
  unfold binary_round. destruct (shl_align m e _) as [mz ez].
  apply binary_round_aux_signed.
Qed.

Lemma SFleb_refl_finite (s : bool) (m : positive) (e : Z) :
  SFleb (S754_finite s m e) (S754_finite s m e) = true.
Proof.
  unfold SFleb, SFcompare. rewrite Z.compare_refl.
  change (Pos.compare_cont Eq m m) with (Pos.compare m m).
  rewrite Pos.compare_refl. destruct s; reflexivity.
Qed.

(** Adding a non-negative float to a float above minus infinity does not
    make it smaller. *)
Lemma SFadd_ge (x y : spec_float) :
  valid_binary x = true -> valid_binary y = true ->
  SFltb (S754_infinity true) x = true ->
  SFleb (S754_zero false) y = true ->
  SFleb x (SF64add x y) = true.
Proof.
  intros Hvx Hvy Hx Hy.
  destruct x as [sx|[|]| |sx mx ex]; try discriminate Hx;
    destruct y as [sy|[|]| |[|] my ey]; try discriminate Hy;
    try (repeat match goal with s : bool |- _ => destruct s end; reflexivity);
    try apply SFleb_refl_finite.
  (* both finite, the second positive *)
  cbn [valid_binary] in Hvx, Hvy.
  destruct (bounded_inv _ _ Hvx) as [Hcx _].
  destruct (bounded_inv _ _ Hvy) as [Hcy _].
  unfold SF64add, SFadd.
  remember (Z.min ex ey) as ez eqn:Hez.
  assert (Hez1 : -1074 <= ez) by lia.
  assert (Hez2 : ez <= ex) by lia.
  assert (Hez3 : ez <= ey) by lia.
  clear Hcx Hcy Hez Hvy Hx Hy.
  pose proof (shl_align_value mx ex ez Hez2) as HX.
  pose proof (shl_align_value my ey ez Hez3) as HY.
  destruct (shl_align mx ex ez) as [X ex'], (shl_align my ey ez) as [Y ey'].
  cbn [fst] in *. clear HY Hez3.
  destruct sx; cbn [cond_Zopp].
  - (* a negative float *)
    destruct (- Z.pos X + Z.pos Y) as [|M|M] eqn:HM; cbn [binary_normalize].
    + reflexivity.
    + pose proof (binary_round_signed false M ez) as Hs.
      destruct (binary_round prec emax false M ez) as [s|s| |s m e];
        cbn [SF.signed] in Hs; try contradiction; subst s; reflexivity.
    + assert (Hlt : Z.pos M < Z.pos mx * 2 ^ (ex - ez)) by (rewrite <- HX; lia).
      destruct (binary_round_le true mx M ex ez Hvx Hez1 Hez2 Hlt)
        as (m & e & -> & He).
      clear - He.
      unfold SFleb, SFcompare. destruct He as [He|[-> He]].
      * apply Z.compare_gt_iff in He. rewrite He. reflexivity.
      * rewrite Z.compare_refl.
        change (Pos.compare_cont Eq mx m) with (Pos.compare mx m).
        destruct (Pos.compare_spec mx m); try reflexivity. lia.
  - (* a positive float *)
    change (Z.pos X + Z.pos Y) with (Z.pos (X + Y)). cbn [binary_normalize].
    apply binary_round_ge; try assumption.
    rewrite <- HX. rewrite Pos2Z.inj_add. lia.
Qed.

(** Multiplying a non-negative float by a positive finite float gives a
    non-negative float. *)
Lemma SFmul_nonneg (a : spec_float) (mc : positive) (ec : Z) :
  SFleb (S754_zero false) a = true ->
  SFleb (S754_zero false) (SF64mul a (S754_finite false mc ec)) = true.
Proof.
  intros Ha.
  destruct a as [sa|[|]| |[|] ma ea]; try discriminate Ha; try reflexivity.
  unfold SF64mul, SFmul. cbn [xorb].
  pose proof (binary_round_aux_signed false (ma * mc) (ea + ec)) as Hs.
  destruct (binary_round_aux prec emax false (Z.pos (ma * mc)) (ea + ec) loc_Exact)
    as [s|s| |s m e]; cbn [SF.signed] in Hs; try contradiction; subst s; reflexivity.
Qed.

Lemma add_ge (x y : float) :
  (neg_infinity <? x)%float = true ->
  (0 <=? y)%float = true ->
  (x <=? x + y)%float = true.
Proof.
  rewrite ltb_spec, !leb_spec, add_spec.
  apply SFadd_ge; apply Prim2SF_valid.
Qed.

Lemma mul_nonneg (a c : float) (mc : positive) (ec : Z) :
  Prim2SF c = S754_finite false mc ec ->
  (0 <=? a)%float = true ->
  (0 <=? a * c)%float = true.
Proof.
  intros Hc. rewrite !leb_spec, mul_spec, Hc.
  apply SFmul_nonneg.
Qed.

End F64.

(** ** Lists and strings *)

Lemma app_singleton_neq {A} (l : list A) (x : A) : (l ++ [x])%list <> l.
Proof.
  intros H. apply (f_equal (@List.length A)) in H.
  rewrite length_app in H. simpl in H. lia.
Qed.

Lemma firstn_prefix {A} (n : nat) (l : list A) :
  exists rest, l = (firstn n l ++ rest)%list.
Proof. exists (skipn n l). symmetry. apply firstn_skipn. Qed.

Lemma slice_to_prefix {A} (l : list A) (n : Z) :
  exists rest, l = (Py.slice_to l n ++ rest)%list.
Proof. unfold Py.slice_to. destruct (0 <=? n); apply firstn_prefix. Qed.

Lemma slice_to_length {A} (l : list A) (n : Z) :
  0 <= n ->
  Z.of_nat (List.length (Py.slice_to l n)) = Z.min n (Z.of_nat (List.length l)).
Proof.
  intros Hn. unfold Py.slice_to.
  destruct (Z.leb_spec 0 n); [|lia].
  rewrite length_firstn. lia.
Qed.

(** ** server.py, whatever the collaborators do *)

Section ServerProperties.

Variable World : Type.
Variable time : World -> float * World.
Variable _config : Config.
Variable query_multiple_servers : list string -> M World (list NTPResponse).
Variable compute_consensus : list NTPResponse -> M World TimeConsensus.
Variable datetime : Type.
Variable tzinfo : Type.
Variable fromtimestamp_utc : float -> Py.result datetime.
Variable ZoneInfo : string -> Py.result tzinfo.
Variable astimezone : datetime -> tzinfo -> Py.result datetime.
Variable isoformat : datetime -> string.
Variable format_1f : float -> string.

Local Abbreviation get_time_utc :=
  (Server.get_time_utc World time _config query_multiple_servers compute_consensus
     datetime fromtimestamp_utc isoformat format_1f).
Local Abbreviation get_time_for_timezone :=
  (Server.get_time_for_timezone World time _config query_multiple_servers
     compute_consensus datetime tzinfo fromtimestamp_utc ZoneInfo astimezone
     isoformat format_1f).
Local Abbreviation compare_system_clock :=
  (Server.compare_system_clock World time _config query_multiple_servers
     compute_consensus datetime fromtimestamp_utc isoformat format_1f).
Local Abbreviation to_local_time :=
  (Server.to_local_time datetime tzinfo fromtimestamp_utc ZoneInfo astimezone isoformat).
Local Abbreviation latency_warning := (Server.latency_warning format_1f).
Local Abbreviation queried :=
  (Server.queried World time _config query_multiple_servers compute_consensus).

Ltac run_monad :=
  unfold Server.get_time_utc, bind, total, lift, ret, Py.ok.
Ltac run_monad_in H :=
  unfold Server.get_time_utc, bind, total, lift, ret, Py.ok in H.

(** Without compensation the call returns the consensus fields. *)
Lemma get_time_utc_plain mode w t0 c t1 w3 :
  queried mode w t0 c t1 w3 ->
  get_time_utc mode false w =
    (inr {| iso8601_time := tc_iso8601_time c;
            epoch_ms := tc_epoch_ms c;
            sources_used := tc_sources_used c;
            total_sources := tc_total_sources c;
            consensus_method := ConsensusMethod_value (tc_consensus_method c);
            estimated_error_ms := tc_estimated_error_ms c;
            source_samples := tc_source_samples c;
            warnings := tc_warnings c;
            system_time := tc_system_time c;
            system_delta_ms := tc_system_delta_ms c;
            query_duration_ms := ((t1 - t0) * 1000)%float;
            latency_compensated := false |}, w3).
Proof.
  intros [t0' w0 responses w1 c' w2 t1' w3' H0 Hq Hc H1].
  run_monad. rewrite H0, Hq, Hc, H1. reflexivity.
Qed.

(** With compensation the call returns the compensated fields, when the
    compensated timestamp converts to an [int] and to a [datetime]. *)
Lemma get_time_utc_compensated mode w t0 c t1 w3 t2 w4 ms dt :
  queried mode w t0 c t1 w3 ->
  time w3 = (t2, w4) ->
  Py.int ((tc_timestamp c + (t1 - t0)) * 1000)%float = inr ms ->
  fromtimestamp_utc (tc_timestamp c + (t1 - t0))%float = inr dt ->
  get_time_utc mode true w =
    (inr {| iso8601_time := isoformat dt;
            epoch_ms := ms;
            sources_used := tc_sources_used c;
            total_sources := tc_total_sources c;
            consensus_method := ConsensusMethod_value (tc_consensus_method c);
            estimated_error_ms :=
              (tc_estimated_error_ms c + (t1 - t0) * 1000 * 0.1)%float;
            source_samples := tc_source_samples c;
            warnings :=
              if (100 <? (t1 - t0) * 1000)%float
              then (tc_warnings c ++ [latency_warning ((t1 - t0) * 1000)%float])%list
              else tc_warnings c;
            system_time := tc_system_time c;
            system_delta_ms := ((t2 - (tc_timestamp c + (t1 - t0))) * 1000)%float;
            query_duration_ms := ((t1 - t0) * 1000)%float;
            latency_compensated := true |}, w4).
Proof.
  intros [t0' w0 responses w1 c' w2 t1' w3' H0 Hq Hc H1] H2 Hms Hdt.
  run_monad. rewrite H0, Hq, Hc, H1, Hms, Hdt, H2. reflexivity.
Qed.

(** Every call that returns went through the query phase. *)
Lemma get_time_utc_returns mode compensate w r w' :
  get_time_utc mode compensate w = (inr r, w') ->
  exists t0 c t1 w3,
    queried mode w t0 c t1 w3 /\
    query_duration_ms r = ((t1 - t0) * 1000)%float /\
    sources_used r = tc_sources_used c /\
    total_sources r = tc_total_sources c /\
    consensus_method r = ConsensusMethod_value (tc_consensus_method c) /\
    latency_compensated r = compensate /\
    (compensate = false -> w' = w3 /\ get_time_utc mode false w = (inr r, w3)) /\
    (compensate = true ->
     exists t2 ms dt,
       time w3 = (t2, w') /\
       Py.int ((tc_timestamp c + (t1 - t0)) * 1000)%float = inr ms /\
       fromtimestamp_utc (tc_timestamp c + (t1 - t0))%float = inr dt).
Proof.
  intros H. assert (Hcall := H). run_monad_in H.
  destruct (time w) as [t0 w0] eqn:H0.
  destruct (query_multiple_servers (Server.select_servers _config mode) w0)
    as [[e|responses] w1] eqn:Hq; [discriminate|].
  destruct (compute_consensus responses w1) as [[e|c] w2] eqn:Hc; [discriminate|].
  destruct (time w2) as [t1 w3] eqn:H1.
  assert (Hrun : queried mode w t0 c t1 w3) by (econstructor; eassumption).
  exists t0, c, t1, w3. split; [exact Hrun|].
  destruct compensate.
  - destruct (Py.int _) as [e|ms] eqn:Hms; [discriminate|].
    destruct (fromtimestamp_utc _) as [e|dt] eqn:Hdt; [discriminate|].
    destruct (time w3) as [t2 w4] eqn:H2.
    injection H as <- <-. simpl.
    do 5 (split; [reflexivity|]). split; [discriminate|].
    intros _. exists t2, ms, dt. auto.
  - injection H as <- <-. simpl.
    do 5 (split; [reflexivity|]). split; [|discriminate].
    intros _. split; [reflexivity|].
    exact Hcall.
Qed.

(** C1: every call of [get_time_utc] with [compensate_latency] true that
    returns went through a query phase with consensus [c] and elapsed
    duration [d = query_end - query_start], and returns the timestamp
    [tc_timestamp c + d] (as [epoch_ms], its milliseconds truncated, and as
    [iso8601_time], its ISO rendering), the estimated error
    [tc_estimated_error_ms c + d * 1000 * 0.1], the system delta
    [(t2 - (tc_timestamp c + d)) * 1000] for a clock reading [t2] taken
    after the query phase, and the warnings of [c], to which one warning,
    the latency-compensation warning, is appended if and only if
    [d * 1000 > 100]. *)
Theorem latency_compensation mode w r w' :
  get_time_utc mode true w = (inr r, w') ->
  exists t0 c t1 w3 t2 dt,
    queried mode w t0 c t1 w3 /\
    time w3 = (t2, w') /\
    let d := (t1 - t0)%float in
    let compensated_timestamp := (tc_timestamp c + d)%float in
    Py.int (compensated_timestamp * 1000)%float = inr (epoch_ms r) /\
    fromtimestamp_utc compensated_timestamp = inr dt /\
    iso8601_time r = isoformat dt /\
    estimated_error_ms r = (tc_estimated_error_ms c + d * 1000 * 0.1)%float /\
    system_delta_ms r = ((t2 - compensated_timestamp) * 1000)%float /\
    ((100 <? d * 1000)%float = true ->
     warnings r = (tc_warnings c ++ [latency_warning (d * 1000)%float])%list) /\
    ((100 <? d * 1000)%float = false -> warnings r = tc_warnings c) /\
    ((exists msg, warnings r = (tc_warnings c ++ [msg])%list) <->
     (100 <? d * 1000)%float = true).
Proof.
  intros Hcall.
  destruct (get_time_utc_returns _ _ _ _ _ Hcall)
    as (t0 & c & t1 & w3 & Hrun & _ & _ & _ & _ & _ & _ & Hcomp).
  destruct (Hcomp eq_refl) as (t2 & ms & dt & H2 & Hms & Hdt).
  rewrite (get_time_utc_compensated _ _ _ _ _ _ _ _ _ _ Hrun H2 Hms Hdt) in Hcall.
  injection Hcall as <-.
  exists t0, c, t1, w3, t2, dt. cbn [epoch_ms iso8601_time estimated_error_ms
    system_delta_ms warnings].
  do 7 (split; [first [assumption | reflexivity]|]).
  destruct (100 <? (t1 - t0) * 1000)%float.
  - split; [reflexivity|]. split; [discriminate|].
    split; [reflexivity|]. intros _. eexists. reflexivity.
  - split; [discriminate|]. split; [reflexivity|].
    split; [|discriminate].
    intros [msg Hmsg]. symmetry in Hmsg. exfalso.
    exact (app_singleton_neq _ _ Hmsg).
Qed.

(** C10: every call of [get_time_utc] that returns has
    [latency_compensated] equal to the [compensate_latency] argument, and
    with [compensate_latency] false its [iso8601_time], [epoch_ms],
    [estimated_error_ms], [warnings] and [system_delta_ms] are the fields of
    the consensus result, unchanged. *)
Theorem uncompensated_fields mode compensate w r w' :
  get_time_utc mode compensate w = (inr r, w') ->
  latency_compensated r = compensate /\
  (compensate = false ->
   exists t0 c t1,
     queried mode w t0 c t1 w' /\
     iso8601_time r = tc_iso8601_time c /\
     epoch_ms r = tc_epoch_ms c /\
     estimated_error_ms r = tc_estimated_error_ms c /\
     warnings r = tc_warnings c /\
     system_delta_ms r = tc_system_delta_ms c).
Proof.
  intros Hcall.
  destruct (get_time_utc_returns _ _ _ _ _ Hcall)
    as (t0 & c & t1 & w3 & Hrun & _ & _ & _ & _ & Hflag & Hplain & _).
  split; [exact Hflag|].
  intros ->. destruct (Hplain eq_refl) as [-> Hr].
  rewrite (get_time_utc_plain _ _ _ _ _ _ Hrun) in Hr.
  injection Hr as <-.
  exists t0, c, t1. simpl. auto 10.
Qed.

(** The conversion fails as soon as the zone is not found. *)
Lemma to_local_time_unresolvable r name e :
  ZoneInfo name = inl e ->
  exists e', to_local_time r name = inl e'.
Proof.
  intros Hz. unfold Server.to_local_time, and_then.
  destruct (Py.float_of_int (epoch_ms r)) as [e1|ms]; [eauto|].
  destruct (fromtimestamp_utc _) as [e2|dt]; [eauto|].
  rewrite Hz. eauto.
Qed.

(** C3: when the zone name does not resolve, [get_time_for_timezone]
    returns, [local_time] is ["ERROR: "] followed by a message, the
    warnings are those of the UTC result followed by one message that
    contains the requested zone name, and every other inherited field is
    the field of the result of [get_time_utc]. *)
Theorem unresolvable_timezone name mode compensate w tr w' e :
  get_time_utc mode compensate w = (inr tr, w') ->
  ZoneInfo name = inl e ->
  exists r msg before after,
    get_time_for_timezone name mode compensate w = (inr r, w') /\
    local_time r = "ERROR: " ++ msg /\
    timezone r = name /\
    warnings (base r) = (warnings tr ++ [(before ++ name ++ after)%string])%list /\
    iso8601_time (base r) = iso8601_time tr /\
    epoch_ms (base r) = epoch_ms tr /\
    sources_used (base r) = sources_used tr /\
    total_sources (base r) = total_sources tr /\
    consensus_method (base r) = consensus_method tr /\
    estimated_error_ms (base r) = estimated_error_ms tr /\
    source_samples (base r) = source_samples tr /\
    system_time (base r) = system_time tr /\
    system_delta_ms (base r) = system_delta_ms tr /\
    query_duration_ms (base r) = query_duration_ms tr /\
    latency_compensated (base r) = latency_compensated tr.
Proof.
  intros Hutc Hz.
  destruct (to_local_time_unresolvable tr name e Hz) as [e' He'].
  unfold Server.get_time_for_timezone, bind. rewrite Hutc, He'.
  eexists _, (Py.str e'), "Failed to convert to timezone ", (": " ++ Py.str e').
  unfold ret, Py.ok. split; [reflexivity|]. simpl. auto 20.
Qed.

Section Zones.

(** What [datetime] says of an aware datetime: its instant, in
    microseconds since the epoch, and whether its [tzinfo] is a given zone.
    [astimezone] keeps the instant and moves the datetime to the zone. *)
Variable instant : datetime -> Z.
Variable in_zone : datetime -> tzinfo -> Prop.
Hypothesis astimezone_spec : forall dt tz dt',
  astimezone dt tz = inr dt' -> instant dt' = instant dt /\ in_zone dt' tz.


End Zones.

(** C2: the status is [OK] when [|delta_ms| < 100], [DRIFT] when
    [100 <= |delta_ms| < 1000] and [ERROR] when [|delta_ms| >= 1000]; 99.9
    gives ok, 100.0 and 999.9 give drift, 1000.0 gives error; and the status
    that [compare_system_clock] returns is the status of the [delta_ms] it
    returns. *)
Theorem drift_classification :
  (forall d, (abs d <? 100)%float = true -> Server.clock_status d = OK) /\
  (forall d, (100 <=? abs d)%float = true -> (abs d <? 1000)%float = true ->
             Server.clock_status d = DRIFT) /\
  (forall d, (1000 <=? abs d)%float = true -> Server.clock_status d = ERROR) /\
  Server.clock_status 99.9 = OK /\
  Server.clock_status 100.0 = DRIFT /\
  Server.clock_status 999.9 = DRIFT /\
  Server.clock_status 1000.0 = ERROR /\
  (forall mode w r w',
     compare_system_clock mode w = (inr r, w') ->
     cc_status r = Server.clock_status (cc_delta_ms r)).
Proof.
  unfold Server.clock_status.
  split; [intros d H; rewrite H; reflexivity|].
  split.
  { intros d Hlo Hhi. rewrite (F64.leb_not_ltb _ _ Hlo), Hhi. reflexivity. }
  split.
  { intros d H.
    assert (H100 : (100 <=? abs d)%float = true)
      by (apply (F64.leb_trans 100 1000 (abs d)); [reflexivity|exact H]).
    rewrite (F64.leb_not_ltb _ _ H100), (F64.leb_not_ltb _ _ H). reflexivity. }
  do 4 (split; [vm_compute; reflexivity|]).
  intros mode w r w'. unfold Server.compare_system_clock, bind, ret, Py.ok.
  destruct (get_time_utc mode true w) as [[e|tr] w1]; [discriminate|].
  intros H. injection H as <- <-. reflexivity.
Qed.

(** C4, as the code has it: [ConsensusMethod] has exactly two members,
    the outlier-rejected median and the system fallback, and the
    [consensus_method] of every response of [get_time_utc] is the value of
    one of the two. *)
Theorem consensus_methods :
  (forall m : ConsensusMethod,
     m = MEDIAN_WITH_OUTLIER_REJECTION \/ m = SYSTEM_FALLBACK) /\
  MEDIAN_WITH_OUTLIER_REJECTION <> SYSTEM_FALLBACK /\
  (forall mode compensate w r w',
     get_time_utc mode compensate w = (inr r, w') ->
     consensus_method r = "median_with_outlier_rejection" \/
     consensus_method r = "system_fallback").
Proof.
  split; [intros []; auto|]. split; [discriminate|].
  intros mode compensate w r w' Hcall.
  destruct (get_time_utc_returns _ _ _ _ _ Hcall)
    as (t0 & c & t1 & w3 & _ & _ & _ & _ & Hm & _).
  rewrite Hm. destruct (tc_consensus_method c); auto.
Qed.

End ServerProperties.

(** The claim C4 counts a single-source tag among the members of the
    consensus-method type: no member of [ConsensusMethod] has the value
    [single_source], and there are no three distinct members. *)
Lemma no_single_source_method :
  ~ (exists m : ConsensusMethod, ConsensusMethod_value m = "single_source") /\
  ~ (exists a b c : ConsensusMethod, a <> b /\ a <> c /\ b <> c).
Proof.
  split.
  - intros [[] H]; discriminate H.
  - intros (a & b & c & Hab & Hac & Hbc).
    destruct a, b, c; congruence.
Qed.

(** ** The properties at work on the scripted runtime *)

Lemma latency_compensation_witness :
  exists r w',
    Sim.get_time_utc Sim.config Sim.net FAST true Sim.script = (inr r, w') /\
    exists t0 c t1 w3 t2 dt,
      Sim.queried Sim.config Sim.net FAST Sim.script t0 c t1 w3 /\
      Sim.time w3 = (t2, w') /\
      let d := (t1 - t0)%float in
      let compensated_timestamp := (tc_timestamp c + d)%float in
      Py.int (compensated_timestamp * 1000)%float = inr (epoch_ms r) /\
      Sim.fromtimestamp_utc compensated_timestamp = inr dt /\
      iso8601_time r = Sim.isoformat dt /\
      estimated_error_ms r = (tc_estimated_error_ms c + d * 1000 * 0.1)%float /\
      system_delta_ms r = ((t2 - compensated_timestamp) * 1000)%float /\
      ((100 <? d * 1000)%float = true ->
       warnings r =
         (tc_warnings c ++ [Server.latency_warning Sim.format_1f (d * 1000)%float])%list) /\
      ((100 <? d * 1000)%float = false -> warnings r = tc_warnings c) /\
      ((exists msg, warnings r = (tc_warnings c ++ [msg])%list) <->
       (100 <? d * 1000)%float = true).
Proof.
  do 2 eexists. split; [vm_compute; reflexivity|].
  apply latency_compensation. vm_compute. reflexivity.
Defined.

Lemma uncompensated_fields_witness :
  exists r w',
    Sim.get_time_utc Sim.config Sim.net FAST false Sim.script = (inr r, w') /\
    latency_compensated r = false /\
    (false = false ->
     exists t0 c t1,
       Sim.queried Sim.config Sim.net FAST Sim.script t0 c t1 w' /\
       iso8601_time r = tc_iso8601_time c /\
       epoch_ms r = tc_epoch_ms c /\
       estimated_error_ms r = tc_estimated_error_ms c /\
       warnings r = tc_warnings c /\
       system_delta_ms r = tc_system_delta_ms c).
Proof.
  do 2 eexists. split; [vm_compute; reflexivity|].
  apply (uncompensated_fields Sim.World Sim.time Sim.config
           (Sim.query_multiple_servers Sim.net) (Sim.compute_consensus Sim.config)
           Sim.datetime Sim.fromtimestamp_utc Sim.isoformat Sim.format_1f
           FAST false Sim.script).
  vm_compute. reflexivity.
Defined.

Lemma unresolvable_timezone_witness :
  exists tr w',
    Sim.get_time_utc Sim.config Sim.net FAST true Sim.script = (inr tr, w') /\
    exists r msg before after,
      Sim.get_time_for_timezone Sim.config Sim.net "Invalid/Timezone" FAST true
        Sim.script = (inr r, w') /\
      local_time r = "ERROR: " ++ msg /\
      timezone r = "Invalid/Timezone" /\
      warnings (base r) =
        (warnings tr ++ [(before ++ "Invalid/Timezone" ++ after)%string])%list /\
      iso8601_time (base r) = iso8601_time tr /\
      epoch_ms (base r) = epoch_ms tr /\
      sources_used (base r) = sources_used tr /\
      total_sources (base r) = total_sources tr /\
      consensus_method (base r) = consensus_method tr /\
      estimated_error_ms (base r) = estimated_error_ms tr /\
      source_samples (base r) = source_samples tr /\
      system_time (base r) = system_time tr /\
      system_delta_ms (base r) = system_delta_ms tr /\
      query_duration_ms (base r) = query_duration_ms tr /\
      latency_compensated (base r) = latency_compensated tr.
Proof.
  do 2 eexists. split; [vm_compute; reflexivity|].
  eapply unresolvable_timezone; vm_compute; reflexivity.
Defined.



Lemma drift_classification_witness :
  Server.clock_status 150 = DRIFT /\ Server.clock_status (-2000) = ERROR /\ Server.clock_status 50 = OK.
Proof.
  destruct (drift_classification Sim.World Sim.time Sim.config
              (Sim.query_multiple_servers Sim.net) (Sim.compute_consensus Sim.config)
              Sim.datetime Sim.fromtimestamp_utc Sim.isoformat Sim.format_1f)
    as (Hok & Hdrift & Herror & _).
  split; [apply Hdrift; reflexivity|].
  split; [apply Herror; reflexivity|apply Hok; reflexivity].
Defined.

(** * More of server.py *)

(** ** The sign of a difference of floats *)

Module Sign.

Lemma SFleb_SFltb_trans (x y z : spec_float) :
  SFleb x y = true -> SFltb y z = true -> SFltb x z = true.
Proof.
  unfold SFleb, SFltb.
  destruct x as [sx|sx| |sx mx ex], y as [sy|sy| |sy my ey],
    z as [sz|sz| |sz mz ez]; simpl;
    try destruct sx; try destruct sy; try destruct sz; simpl;
    try reflexivity; try discriminate; intros Hxy Hyz;
    F64.order_cases; try reflexivity; try discriminate; try lia.
Qed.

Lemma leb_ltb_trans (x y z : float) :
  (x <=? y)%float = true -> (y <? z)%float = true -> (x <? z)%float = true.
Proof. rewrite leb_spec, !ltb_spec. apply SFleb_SFltb_trans. Qed.

(** Of two valid floats of a sign, the one that compares smaller in
    magnitude has the smaller mantissa at their common exponent. *)
Lemma aligned_lt (mx my : positive) (ex ey : Z) :
  bounded prec emax mx ex = true -> bounded prec emax my ey = true ->
  ey < ex \/ (ey = ex /\ Z.pos my < Z.pos mx) ->
  Z.pos (fst (shl_align my ey (Z.min ex ey))) <
  Z.pos (fst (shl_align mx ex (Z.min ex ey))).
Proof.
  intros Hx Hy Hlt.
  destruct (F64.bounded_inv _ _ Hx) as [Hcx _].
  destruct (F64.bounded_inv _ _ Hy) as [Hcy _].
  rewrite !F64.shl_align_value by lia.
  destruct Hlt as [Hlt|[-> Hlt]].
  - replace (Z.min ex ey) with ey by lia.
    rewrite Z.sub_diag, Z.pow_0_r, Z.mul_1_r.
    destruct (F64.digits2_pos_bounds mx) as [Hlo _].
    destruct (F64.digits2_pos_bounds my) as [_ Hhi].
    assert (Hdx : Z.pos (digits2_pos mx) = 53) by lia.
    assert (Hdy : Z.pos (digits2_pos my) <= 53) by lia.
    rewrite Hdx in Hlo. change (2 ^ (53 - 1)) with 4503599627370496 in Hlo.
    assert (Hy53 : Z.pos my < 9007199254740992).
    { apply Z.lt_le_trans with (1 := Hhi).
      change 9007199254740992 with (2 ^ 53). apply Z.pow_le_mono_r; lia. }
    assert (Hp : 2 ^ 1 <= 2 ^ (ex - ey)) by (apply Z.pow_le_mono_r; lia).
    change (2 ^ 1) with 2 in Hp.
    clear Hcx Hcy Hdx Hdy Hhi Hx Hy.
    remember (2 ^ (ex - ey)) as p eqn:Hpdef. clear Hpdef Hlt.
    nia.
  - rewrite Z.min_id, Z.sub_diag, Z.pow_0_r, !Z.mul_1_r. exact Hlt.
Qed.

(** The order of two finite floats of a sign, read off [SFcompare]. *)
Lemma SFltb_finite_inv (s : bool) (mx my : positive) (ex ey : Z) :
  SFltb (S754_finite s my ey) (S754_finite s mx ex) = true ->
  if s then ex < ey \/ (ex = ey /\ Z.pos mx < Z.pos my)
  else ey < ex \/ (ey = ex /\ Z.pos my < Z.pos mx).
Proof.
  unfold SFltb, SFcompare. destruct s; intros H; F64.order_cases;
    try discriminate; try (left; lia); right; split; lia.
Qed.

(** A float minus a smaller float is a number that is not negative. *)
Lemma SFsub_signed_pos (x y : spec_float) :
  valid_binary x = true -> valid_binary y = true ->
  SFltb y x = true ->
  SF.signed false (SF64sub x y).
Proof.
  intros Hvx Hvy Hlt.
  destruct x as [sx|sx| |sx mx ex], y as [sy|sy| |sy my ey];
    try discriminate Hlt;
    try (repeat match goal with s : bool |- _ => destruct s end;
         try discriminate Hlt; reflexivity).
  cbn [valid_binary] in Hvx, Hvy.
  unfold SF64sub, SFsub.
  destruct sx, sy; try discriminate Hlt; cbn [cond_Zopp].
  - (* both negative *)
    apply SFltb_finite_inv in Hlt.
    pose proof (aligned_lt my mx ey ex Hvy Hvx Hlt) as H.
    rewrite (Z.min_comm ey ex) in H.
    destruct (shl_align mx ex (Z.min ex ey)) as [X ex'],
             (shl_align my ey (Z.min ex ey)) as [Y ey']. cbn [fst] in *.
    destruct (- Z.pos X - - Z.pos Y) as [|M|M] eqn:HM; try lia.
    cbn [binary_normalize]. apply F64.binary_round_signed.
  - (* a positive minus a negative one *)
    destruct (shl_align mx ex (Z.min ex ey)) as [X ex'],
             (shl_align my ey (Z.min ex ey)) as [Y ey']. cbn [fst].
    change (Z.pos X - - Z.pos Y) with (Z.pos (X + Y)).
    cbn [binary_normalize]. apply F64.binary_round_signed.
  - (* both positive *)
    apply SFltb_finite_inv in Hlt.
    pose proof (aligned_lt mx my ex ey Hvx Hvy Hlt) as H.
    destruct (shl_align mx ex (Z.min ex ey)) as [X ex'],
             (shl_align my ey (Z.min ex ey)) as [Y ey']. cbn [fst] in *.
    destruct (Z.pos X - Z.pos Y) as [|M|M] eqn:HM; try lia.
    cbn [binary_normalize]. apply F64.binary_round_signed.
Qed.

(** A float minus a larger float is a number that is not positive. *)
Lemma SFsub_signed_neg (x y : spec_float) :
  valid_binary x = true -> valid_binary y = true ->
  SFltb x y = true ->
  SF.signed true (SF64sub x y).
Proof.
  intros Hvx Hvy Hlt.
  destruct x as [sx|sx| |sx mx ex], y as [sy|sy| |sy my ey];
    try discriminate Hlt;
    try (repeat match goal with s : bool |- _ => destruct s end;
         try discriminate Hlt; reflexivity).
  cbn [valid_binary] in Hvx, Hvy.
  unfold SF64sub, SFsub.
  destruct sx, sy; try discriminate Hlt; cbn [cond_Zopp].
  - (* both negative *)
    apply SFltb_finite_inv in Hlt.
    pose proof (aligned_lt mx my ex ey Hvx Hvy Hlt) as H.
    destruct (shl_align mx ex (Z.min ex ey)) as [X ex'],
             (shl_align my ey (Z.min ex ey)) as [Y ey']. cbn [fst] in *.
    destruct (- Z.pos X - - Z.pos Y) as [|M|M] eqn:HM; try lia.
    cbn [binary_normalize]. apply F64.binary_round_signed.
  - (* a negative minus a positive one *)
    destruct (shl_align mx ex (Z.min ex ey)) as [X ex'],
             (shl_align my ey (Z.min ex ey)) as [Y ey']. cbn [fst].
    change (- Z.pos X - Z.pos Y) with (Z.neg (X + Y)).
    cbn [binary_normalize]. apply F64.binary_round_signed.
  - (* both positive *)
    apply SFltb_finite_inv in Hlt.
    pose proof (aligned_lt my mx ey ex Hvy Hvx Hlt) as H.
    rewrite (Z.min_comm ey ex) in H.
    destruct (shl_align mx ex (Z.min ex ey)) as [X ex'],
             (shl_align my ey (Z.min ex ey)) as [Y ey']. cbn [fst] in *.
    destruct (Z.pos X - Z.pos Y) as [|M|M] eqn:HM; try lia.
    cbn [binary_normalize]. apply F64.binary_round_signed.
Qed.

(** The product with a positive finite float keeps the sign. *)
Lemma SFmul_signed (s : bool) (a : spec_float) (mc : positive) (ec : Z) :
  SF.signed s a -> SF.signed s (SF64mul a (S754_finite false mc ec)).
Proof.
  intros Ha.
  destruct a as [sa|sa| |sa ma ea]; cbn [SF.signed] in Ha; try contradiction;
    subst sa; unfold SF64mul, SFmul; rewrite ?xorb_false_r;
    try reflexivity.
  apply F64.binary_round_aux_signed.
Qed.

Lemma signed_nonneg (x : spec_float) :
  SF.signed false x -> SFleb (S754_zero false) x = true.
Proof. destruct x as [s|s| |s m e]; cbn; try contradiction; intros ->; reflexivity. Qed.

Lemma signed_nonpos (x : spec_float) :
  SF.signed true x -> SFleb x (S754_zero false) = true.
Proof. destruct x as [s|s| |s m e]; cbn; try contradiction; intros ->; reflexivity. Qed.

(** The sign of [(a - b) * c] for a positive finite [c]. *)
Lemma scaled_difference_sign (a b c : float) (mc : positive) (ec : Z) :
  Prim2SF c = S754_finite false mc ec ->
  ((b <? a)%float = true -> (0 <=? (a - b) * c)%float = true) /\
  ((a <? b)%float = true -> ((a - b) * c <=? 0)%float = true).
Proof.
  intros Hc. rewrite !ltb_spec, !leb_spec, mul_spec, sub_spec, Hc. split; intros H.
  - apply signed_nonneg, SFmul_signed, SFsub_signed_pos;
      [apply Prim2SF_valid|apply Prim2SF_valid|exact H].
  - apply signed_nonpos, SFmul_signed, SFsub_signed_neg;
      [apply Prim2SF_valid|apply Prim2SF_valid|exact H].
Qed.

End Sign.

(** ** Floats that are not finite *)

Lemma isfinite_int (x : float) :
  Py.isfinite x = false <-> exists e, Py.int x = inl e.
Proof.
  unfold Py.isfinite, Py.int, Py.raise, Py.ok.
  destruct (Prim2SF x) as [s|s| |s m e]; cbn [Py.trunc]; split;
    try discriminate; try (intros [e' H]; discriminate H);
    intros _; try reflexivity; eexists; reflexivity.
Qed.

Lemma not_finite_add (x y : float) :
  Py.isfinite x = false -> Py.isfinite (x + y) = false.
Proof.
  unfold Py.isfinite. rewrite add_spec.
  destruct (Prim2SF x) as [s|s| |s m e]; try discriminate; intros _;
    destruct (Prim2SF y) as [s'|s'| |s' m' e']; try destruct s;
    try destruct s'; reflexivity.
Qed.

Lemma not_finite_mul_1000 (x : float) :
  Py.isfinite x = false -> Py.isfinite (x * 1000) = false.
Proof.
  unfold Py.isfinite. rewrite mul_spec.
  replace (Prim2SF 1000) with (S754_finite false 8796093022208000 (-43))
    by (vm_compute; reflexivity).
  destruct (Prim2SF x) as [s|s| |s m e]; try discriminate; reflexivity.
Qed.

Lemma abs_opp (x : float) : abs (- x) = abs x.
Proof.
  apply Prim2SF_inj. rewrite !abs_spec, opp_spec.
  destruct (Prim2SF x); reflexivity.
Qed.

(** ** server.py: the status of a delta, the servers of a mode, main *)

(** X1: the status of a delta depends on its magnitude only, and a delta
    that is not finite (a NaN, an infinity) is an [ERROR]. *)
Theorem clock_status_magnitude :
  (forall d, Server.clock_status (- d) = Server.clock_status d) /\
  (forall d, Py.isfinite d = false -> Server.clock_status d = ERROR).
Proof.
  split.
  - intros d. unfold Server.clock_status. rewrite abs_opp. reflexivity.
  - intros d. unfold Server.clock_status, Py.isfinite.
    rewrite !ltb_spec, abs_spec.
    replace (Prim2SF 100) with (S754_finite false 7036874417766400 (-46))
      by (vm_compute; reflexivity).
    replace (Prim2SF 1000) with (S754_finite false 8796093022208000 (-43))
      by (vm_compute; reflexivity).
    destruct (Prim2SF d) as [s|s| |s m e]; try discriminate; reflexivity.
Qed.

(** X2: a delta of a larger magnitude never has a better status: when
    [|d1| <= |d2|], [d1] is [OK] whenever [d2] is, and [d2] is an [ERROR]
    whenever [d1] is. *)
Theorem clock_status_monotone (d1 d2 : float) :
  (abs d1 <=? abs d2)%float = true ->
  (Server.clock_status d2 = OK -> Server.clock_status d1 = OK) /\
  (Server.clock_status d1 = ERROR -> Server.clock_status d2 = ERROR).
Proof.
  intros Hle. unfold Server.clock_status.
  pose proof (Sign.leb_ltb_trans _ _ 100 Hle) as H100.
  pose proof (Sign.leb_ltb_trans _ _ 1000 Hle) as H1000.
  destruct (abs d2 <? 100)%float.
  - rewrite (H100 eq_refl). split; [reflexivity|discriminate].
  - destruct (abs d2 <? 1000)%float.
    + rewrite (H1000 eq_refl). split; [discriminate|].
      destruct (abs d1 <? 100)%float; discriminate.
    + split; [discriminate|reflexivity].
Qed.

(** X3: the servers of the fast mode are a prefix of the servers of the
    accurate mode, which are all the configured servers; a non-negative
    [fast_mode_server_count] keeps that many servers, or all of them when
    there are fewer, and a negative one drops that many servers from the
    end. *)
Theorem fast_servers_prefix (config : Config) :
  Server.select_servers config ACCURATE = ntp_servers config /\
  (exists rest,
     ntp_servers config = (Server.select_servers config FAST ++ rest)%list) /\
  (0 <= fast_mode_server_count config ->
   Z.of_nat (List.length (Server.select_servers config FAST)) =
     Z.min (fast_mode_server_count config)
           (Z.of_nat (List.length (ntp_servers config)))) /\
  (fast_mode_server_count config < 0 ->
   Z.of_nat (List.length (Server.select_servers config FAST)) =
     Z.max 0 (Z.of_nat (List.length (ntp_servers config))
              + fast_mode_server_count config)).
Proof.
  unfold Server.select_servers. cbn [AccuracyMode_eqb].
  split; [reflexivity|]. split; [apply slice_to_prefix|].
  split; [apply slice_to_length|].
  intros Hneg. unfold Py.slice_to.
  destruct (Z.leb_spec 0 (fast_mode_server_count config)); [lia|].
  rewrite length_firstn. lia.
Qed.

(** X4: [main] ends with the one call of [run]; the transport is [http]
    exactly when the first argument is [http] or [--http], and [stdio]
    otherwise, whatever the other arguments; in stdio mode [logging] is
    configured at [WARNING], the three loggers of [chuk_mcp_server] are set
    to [ERROR] and nothing is logged; in http mode [logging] is configured at
    [INFO] and the start is logged. *)
Theorem main_transport (name : string) (argv : list string) :
  let http := nth_error argv 1 = Some "http" \/ nth_error argv 1 = Some "--http" in
  (http ->
   Main.main name argv =
     [Main.basicConfig Main.INFO "%(levelname)s:%(name)s:%(message)s";
      Main.info name "Starting Chuk MCP Time Server in HTTP mode";
      Main.run "http"]) /\
  (~ http ->
   Main.main name argv =
     [Main.basicConfig Main.WARNING "%(levelname)s:%(name)s:%(message)s";
      Main.setLevel "chuk_mcp_server" Main.ERROR;
      Main.setLevel "chuk_mcp_server.core" Main.ERROR;
      Main.setLevel "chuk_mcp_server.stdio_transport" Main.ERROR;
      Main.run "stdio"]).
Proof.
  unfold Main.main, Main.mem.
  destruct argv as [|prog [|arg rest]]; cbn [nth_error List.length nth].
  - split; [intros [H|H]; discriminate H|reflexivity].
  - split; [intros [H|H]; discriminate H|reflexivity].
  - replace (1 <? Z.of_nat (S (S (List.length rest)))) with true
      by (symmetry; apply Z.ltb_lt; lia).
    cbn [andb existsb orb].
    destruct (String.eqb_spec arg "http") as [->|Hn1].
    + split; [reflexivity|]. intros H. exfalso. apply H. left. reflexivity.
    + destruct (String.eqb_spec arg "--http") as [->|Hn2].
      * split; [reflexivity|]. intros H. exfalso. apply H. right. reflexivity.
      * split; [|reflexivity].
        intros [H|H]; injection H as H; contradiction.
Qed.

(** ** server.py: the three tools, whatever the collaborators do *)

Section ToolProperties.

Variable World : Type.
Variable time : World -> float * World.
Variable _config : Config.
Variable query_multiple_servers : list string -> M World (list NTPResponse).
Variable compute_consensus : list NTPResponse -> M World TimeConsensus.
Variable datetime : Type.
Variable tzinfo : Type.
Variable fromtimestamp_utc : float -> Py.result datetime.
Variable ZoneInfo : string -> Py.result tzinfo.
Variable astimezone : datetime -> tzinfo -> Py.result datetime.
Variable isoformat : datetime -> string.
Variable format_1f : float -> string.

Local Abbreviation get_time_utc :=
  (Server.get_time_utc World time _config query_multiple_servers compute_consensus
     datetime fromtimestamp_utc isoformat format_1f).
Local Abbreviation get_time_for_timezone :=
  (Server.get_time_for_timezone World time _config query_multiple_servers
     compute_consensus datetime tzinfo fromtimestamp_utc ZoneInfo astimezone
     isoformat format_1f).
Local Abbreviation compare_system_clock :=
  (Server.compare_system_clock World time _config query_multiple_servers
     compute_consensus datetime fromtimestamp_utc isoformat format_1f).
Local Abbreviation to_local_time :=
  (Server.to_local_time datetime tzinfo fromtimestamp_utc ZoneInfo astimezone isoformat).
Local Abbreviation queried :=
  (Server.queried World time _config query_multiple_servers compute_consensus).

(** A call with compensation that raises in [int()]: the clock is not read
    a third time. *)
Lemma get_time_utc_int_raises mode w t0 c t1 w3 e :
  queried mode w t0 c t1 w3 ->
  Py.int ((tc_timestamp c + (t1 - t0)) * 1000)%float = inl e ->
  get_time_utc mode true w = (inl e, w3).
Proof.
  intros [q0 w0 rs w1 cc w2 q1 w3a H0 Hq Hc H1] He.
  unfold Server.get_time_utc, bind, total, lift, ret, Py.ok.
  rewrite H0, Hq, Hc, H1, He. reflexivity.
Qed.

(** And one that raises in [datetime.fromtimestamp]. *)
Lemma get_time_utc_fromtimestamp_raises mode w t0 c t1 w3 ms e :
  queried mode w t0 c t1 w3 ->
  Py.int ((tc_timestamp c + (t1 - t0)) * 1000)%float = inr ms ->
  fromtimestamp_utc (tc_timestamp c + (t1 - t0))%float = inl e ->
  get_time_utc mode true w = (inl e, w3).
Proof.
  intros [q0 w0 rs w1 cc w2 q1 w3a H0 Hq Hc H1] Hms He.
  unfold Server.get_time_utc, bind, total, lift, ret, Py.ok.
  rewrite H0, Hq, Hc, H1, Hms, He. reflexivity.
Qed.

(** The two calls of a world, side by side. *)
Lemma get_time_utc_both mode w r1 w1 r0 w0 :
  get_time_utc mode true w = (inr r1, w1) ->
  get_time_utc mode false w = (inr r0, w0) ->
  exists t0 c t1 t2 ms dt,
    queried mode w t0 c t1 w0 /\
    time w0 = (t2, w1) /\
    r0 = {| iso8601_time := tc_iso8601_time c;
            epoch_ms := tc_epoch_ms c;
            sources_used := tc_sources_used c;
            total_sources := tc_total_sources c;
            consensus_method := ConsensusMethod_value (tc_consensus_method c);
            estimated_error_ms := tc_estimated_error_ms c;
            source_samples := tc_source_samples c;
            warnings := tc_warnings c;
            system_time := tc_system_time c;
            system_delta_ms := tc_system_delta_ms c;
            query_duration_ms := ((t1 - t0) * 1000)%float;
            latency_compensated := false |} /\
    r1 = {| iso8601_time := isoformat dt;
            epoch_ms := ms;
            sources_used := tc_sources_used c;
            total_sources := tc_total_sources c;
            consensus_method := ConsensusMethod_value (tc_consensus_method c);
            estimated_error_ms :=
              (tc_estimated_error_ms c + (t1 - t0) * 1000 * 0.1)%float;
            source_samples := tc_source_samples c;
            warnings :=
              if (100 <? (t1 - t0) * 1000)%float
              then (tc_warnings c
                    ++ [Server.latency_warning format_1f ((t1 - t0) * 1000)%float])%list
              else tc_warnings c;
            system_time := tc_system_time c;
            system_delta_ms := ((t2 - (tc_timestamp c + (t1 - t0))) * 1000)%float;
            query_duration_ms := ((t1 - t0) * 1000)%float;
            latency_compensated := true |}.
Proof.
  intros H1 H0.
  destruct (get_time_utc_returns _ _ _ _ _ _ _ _ _ _ _ _ _ _ H1)
    as (t0 & c & t1 & w3 & Hrun & _ & _ & _ & _ & _ & _ & Hcomp).
  destruct (Hcomp eq_refl) as (t2 & ms & dt & H2 & Hms & Hdt).
  rewrite (get_time_utc_compensated _ _ _ _ _ _ _ _ _ _ _ _ _ _ _ _ _ _ _
             Hrun H2 Hms Hdt) in H1.
  rewrite (get_time_utc_plain _ _ _ _ _ _ _ _ _ _ _ _ _ _ _ Hrun) in H0.
  injection H1 as <-. injection H0 as <- <-.
  exists t0, c, t1, t2, ms, dt. auto.
Qed.

(** X5: compensation never lowers the estimated error: of two calls from
    the same world, the one with compensation adds a tenth of the query
    duration to the estimated error of the one without; and for a duration
    that is not negative and an estimated error above minus infinity the
    sum is at least that estimated error, rounding included. *)
Theorem compensation_raises_error mode w r1 w1 r0 w0 :
  get_time_utc mode true w = (inr r1, w1) ->
  get_time_utc mode false w = (inr r0, w0) ->
  estimated_error_ms r1 = (estimated_error_ms r0 + query_duration_ms r1 * 0.1)%float /\
  ((0 <=? query_duration_ms r1)%float = true ->
   (neg_infinity <? estimated_error_ms r0)%float = true ->
   (estimated_error_ms r0 <=? estimated_error_ms r1)%float = true).
Proof.
  intros H1 H0.
  destruct (get_time_utc_both _ _ _ _ _ _ H1 H0)
    as (t0 & c & t1 & t2 & ms & dt & _ & _ & -> & ->).
  cbn [estimated_error_ms query_duration_ms].
  split; [reflexivity|]. intros Hd Hest.
  apply F64.add_ge; [exact Hest|].
  apply (F64.mul_nonneg _ 0.1 7205759403792794 (-56)); [vm_compute; reflexivity|].
  exact Hd.
Qed.

(** X6: what compensation does not touch: two calls from the same world,
    one with and one without compensation, agree on [sources_used],
    [total_sources], [consensus_method], [source_samples], [system_time] and
    [query_duration_ms], and the warnings of the call without are a prefix
    of the warnings of the call with, which has at most one more. *)
Theorem compensation_frame mode w r1 w1 r0 w0 :
  get_time_utc mode true w = (inr r1, w1) ->
  get_time_utc mode false w = (inr r0, w0) ->
  sources_used r1 = sources_used r0 /\
  total_sources r1 = total_sources r0 /\
  consensus_method r1 = consensus_method r0 /\
  source_samples r1 = source_samples r0 /\
  system_time r1 = system_time r0 /\
  query_duration_ms r1 = query_duration_ms r0 /\
  exists more, warnings r1 = (warnings r0 ++ more)%list /\ (List.length more <= 1)%nat.
Proof.
  intros H1 H0.
  destruct (get_time_utc_both _ _ _ _ _ _ H1 H0)
    as (t0 & c & t1 & t2 & ms & dt & _ & _ & -> & ->).
  cbn [sources_used total_sources consensus_method source_samples system_time
       query_duration_ms warnings].
  do 6 (split; [reflexivity|]).
  destruct (100 <? (t1 - t0) * 1000)%float.
  - eexists. split; [reflexivity|]. cbn. lia.
  - exists []. split; [symmetry; apply app_nil_r|]. cbn. lia.
Qed.

(** X7: compensation can make a call raise: after a query phase the call
    without compensation returns, and the call with compensation raises the
    exception of [int()] or of [datetime.fromtimestamp] on the compensated
    timestamp, before the clock is read again; a consensus timestamp that
    is not finite is such a case. *)
Theorem compensation_can_raise mode w t0 c t1 w3 :
  queried mode w t0 c t1 w3 ->
  let compensated_timestamp := (tc_timestamp c + (t1 - t0))%float in
  (exists r, get_time_utc mode false w = (inr r, w3)) /\
  (forall e,
     Py.int (compensated_timestamp * 1000)%float = inl e ->
     get_time_utc mode true w = (inl e, w3)) /\
  (forall ms e,
     Py.int (compensated_timestamp * 1000)%float = inr ms ->
     fromtimestamp_utc compensated_timestamp = inl e ->
     get_time_utc mode true w = (inl e, w3)) /\
  (Py.isfinite (tc_timestamp c) = false ->
   exists e, get_time_utc mode true w = (inl e, w3)).
Proof.
  intros Hrun ts. subst ts.
  split; [eexists; apply (get_time_utc_plain _ _ _ _ _ _ _ _ _ _ _ _ _ _ _ Hrun)|].
  split; [intros e He; apply (get_time_utc_int_raises _ _ _ _ _ _ _ Hrun He)|].
  split.
  - intros ms e Hms He.
    apply (get_time_utc_fromtimestamp_raises _ _ _ _ _ _ _ _ Hrun Hms He).
  - intros Hnf.
    assert (Hraise : Py.isfinite ((tc_timestamp c + (t1 - t0)) * 1000)%float = false)
      by (apply not_finite_mul_1000, not_finite_add; exact Hnf).
    apply isfinite_int in Hraise. destruct Hraise as [e He].
    exists e. apply (get_time_utc_int_raises _ _ _ _ _ _ _ Hrun He).
Qed.

(** X8: the sign of the delta of a call with compensation: it is not
    negative when the clock, read after the query, is ahead of the
    compensated timestamp, and not positive when it is behind, rounding
    included. *)
Theorem system_delta_sign mode w r w' :
  get_time_utc mode true w = (inr r, w') ->
  exists t0 c t1 w3 t2,
    queried mode w t0 c t1 w3 /\
    time w3 = (t2, w') /\
    let compensated_timestamp := (tc_timestamp c + (t1 - t0))%float in
    ((compensated_timestamp <? t2)%float = true ->
     (0 <=? system_delta_ms r)%float = true) /\
    ((t2 <? compensated_timestamp)%float = true ->
     (system_delta_ms r <=? 0)%float = true).
Proof.
  intros H.
  destruct (get_time_utc_returns _ _ _ _ _ _ _ _ _ _ _ _ _ _ H)
    as (t0 & c & t1 & w3 & Hrun & _ & _ & _ & _ & _ & _ & Hcomp).
  destruct (Hcomp eq_refl) as (t2 & ms & dt & H2 & Hms & Hdt).
  rewrite (get_time_utc_compensated _ _ _ _ _ _ _ _ _ _ _ _ _ _ _ _ _ _ _
             Hrun H2 Hms Hdt) in H.
  injection H as <-.
  exists t0, c, t1, w3, t2. split; [exact Hrun|]. split; [exact H2|].
  cbn [system_delta_ms].
  apply (Sign.scaled_difference_sign _ _ 1000 8796093022208000 (-43)).
  vm_compute; reflexivity.
Qed.

(** X9: [get_time_for_timezone] raises when [get_time_utc] raises, with
    its exception, and at no other time: when [get_time_utc] returns it
    returns, in the same world, either the very response of [get_time_utc]
    with the local time, or that response with one more warning and the
    error marker. *)
Theorem get_time_for_timezone_outcome name mode compensate w :
  (forall e w',
     get_time_utc mode compensate w = (inl e, w') ->
     get_time_for_timezone name mode compensate w = (inl e, w')) /\
  (forall tr w',
     get_time_utc mode compensate w = (inr tr, w') ->
     exists r,
       get_time_for_timezone name mode compensate w = (inr r, w') /\
       timezone r = name /\
       ((to_local_time tr name = inr (local_time r) /\ base r = tr) \/
        (exists e,
           to_local_time tr name = inl e /\
           local_time r = "ERROR: " ++ Py.str e /\
           base r = Server.with_warnings tr
                      (warnings tr ++ [Server.conversion_warning name e])%list))).
Proof.
  unfold Server.get_time_for_timezone, bind, ret, Py.ok. split.
  - intros e w' ->. reflexivity.
  - intros tr w' ->.
    destruct (to_local_time tr name) as [e|lt] eqn:Hlocal.
    + eexists. split; [reflexivity|]. split; [reflexivity|].
      right. exists e. auto.
    + eexists. split; [reflexivity|]. split; [reflexivity|]. left. auto.
Qed.

(** X10: [compare_system_clock] always compensates: what it reports and
    classifies is the delta between a clock reading taken after the query
    and the compensated timestamp, with the compensated estimated error, and
    not the delta of the consensus; and it raises when [get_time_utc] with
    compensation raises. *)
Theorem compare_system_clock_compensates mode w :
  (forall t0 c t1 w3 t2 w4 ms dt,
     queried mode w t0 c t1 w3 ->
     time w3 = (t2, w4) ->
     Py.int ((tc_timestamp c + (t1 - t0)) * 1000)%float = inr ms ->
     fromtimestamp_utc (tc_timestamp c + (t1 - t0))%float = inr dt ->
     let delta := ((t2 - (tc_timestamp c + (t1 - t0))) * 1000)%float in
     compare_system_clock mode w =
       (inr {| cc_system_time := tc_system_time c;
               cc_trusted_time := isoformat dt;
               cc_delta_ms := delta;
               cc_estimated_error_ms :=
                 (tc_estimated_error_ms c + (t1 - t0) * 1000 * 0.1)%float;
               cc_status := Server.clock_status delta |}, w4)) /\
  (forall e w',
     get_time_utc mode true w = (inl e, w') ->
     compare_system_clock mode w = (inl e, w')).
Proof.
  unfold Server.compare_system_clock, bind, ret, Py.ok. split.
  - intros t0 c t1 w3 t2 w4 ms dt Hrun H2 Hms Hdt.
    rewrite (get_time_utc_compensated _ _ _ _ _ _ _ _ _ _ _ _ _ _ _ _ _ _ _
               Hrun H2 Hms Hdt).
    reflexivity.
  - intros e w' ->. reflexivity.
Qed.

End ToolProperties.

(** ** These properties at work on the scripted runtime *)

Lemma compensation_raises_error_witness :
  exists r1 w1 r0 w0,
    Sim.get_time_utc Sim.config Sim.net FAST true Sim.script = (inr r1, w1) /\
    Sim.get_time_utc Sim.config Sim.net FAST false Sim.script = (inr r0, w0) /\
    (0 <=? query_duration_ms r1)%float = true /\
    (neg_infinity <? estimated_error_ms r0)%float = true /\
    estimated_error_ms r1 = (estimated_error_ms r0 + query_duration_ms r1 * 0.1)%float /\
    (estimated_error_ms r0 <=? estimated_error_ms r1)%float = true.
Proof.
  do 4 eexists.
  split; [vm_compute; reflexivity|].
  split; [vm_compute; reflexivity|].
  split; [vm_compute; reflexivity|].
  split; [vm_compute; reflexivity|].
  destruct (compensation_raises_error Sim.World Sim.time Sim.config
              (Sim.query_multiple_servers Sim.net) (Sim.compute_consensus Sim.config)
              Sim.datetime Sim.fromtimestamp_utc Sim.isoformat Sim.format_1f
              FAST Sim.script _ (skipn 4 Sim.script) _ (skipn 3 Sim.script)
              ltac:(vm_compute; reflexivity) ltac:(vm_compute; reflexivity))
    as [Hsum Hle].
  split; [exact Hsum|].
  apply Hle; vm_compute; reflexivity.
Defined.

Lemma compensation_frame_witness :
  exists r1 w1 r0 w0,
    Sim.get_time_utc Sim.config Sim.net FAST true Sim.script = (inr r1, w1) /\
    Sim.get_time_utc Sim.config Sim.net FAST false Sim.script = (inr r0, w0) /\
    sources_used r1 = sources_used r0 /\
    total_sources r1 = total_sources r0 /\
    consensus_method r1 = consensus_method r0 /\
    source_samples r1 = source_samples r0 /\
    system_time r1 = system_time r0 /\
    query_duration_ms r1 = query_duration_ms r0 /\
    exists more, warnings r1 = (warnings r0 ++ more)%list /\ (List.length more <= 1)%nat.
Proof.
  do 4 eexists.
  split; [vm_compute; reflexivity|].
  split; [vm_compute; reflexivity|].
  apply (compensation_frame Sim.World Sim.time Sim.config
           (Sim.query_multiple_servers Sim.net) (Sim.compute_consensus Sim.config)
           Sim.datetime Sim.fromtimestamp_utc Sim.isoformat Sim.format_1f
           FAST Sim.script _ (skipn 4 Sim.script) _ (skipn 3 Sim.script)).
  - vm_compute; reflexivity.
  - vm_compute; reflexivity.
Defined.

(** In the last second of the year 9999 the compensated timestamp is in
    the year 10000: the call with compensation raises, the call without
    returns. *)
Lemma compensation_can_raise_witness :
  (exists r,
     Sim.get_time_utc Sim.config Sim.last_second_net FAST false Sim.last_second_script =
       (inr r, skipn 3 Sim.last_second_script)) /\
  Sim.get_time_utc Sim.config Sim.last_second_net FAST true Sim.last_second_script =
    (inl (Py.Raise "year 10000 is out of range"), skipn 3 Sim.last_second_script).
Proof.
  eassert (Hrun : Sim.queried Sim.config Sim.last_second_net FAST
                    Sim.last_second_script _ _ _ (skipn 3 Sim.last_second_script)).
  { unfold Sim.queried. econstructor.
    - reflexivity.
    - vm_compute; reflexivity.
    - vm_compute; reflexivity.
    - vm_compute; reflexivity. }
  destruct (compensation_can_raise Sim.World Sim.time Sim.config
              (Sim.query_multiple_servers Sim.last_second_net)
              (Sim.compute_consensus Sim.config)
              Sim.datetime Sim.fromtimestamp_utc Sim.isoformat Sim.format_1f
              _ _ _ _ _ _ Hrun) as (Hplain & _ & Hdt & _).
  split; [exact Hplain|].
  eapply Hdt.
  - vm_compute; reflexivity.
  - vm_compute; reflexivity.
Defined.

Lemma system_delta_sign_witness :
  exists r w',
    Sim.get_time_utc Sim.config Sim.net FAST true Sim.script = (inr r, w') /\
    (0 <=? system_delta_ms r)%float = true /\
    exists t0 c t1 w3 t2,
      Sim.queried Sim.config Sim.net FAST Sim.script t0 c t1 w3 /\
      Sim.time w3 = (t2, w') /\
      let compensated_timestamp := (tc_timestamp c + (t1 - t0))%float in
      ((compensated_timestamp <? t2)%float = true ->
       (0 <=? system_delta_ms r)%float = true) /\
      ((t2 <? compensated_timestamp)%float = true ->
       (system_delta_ms r <=? 0)%float = true).
Proof.
  do 2 eexists. split; [vm_compute; reflexivity|].
  split; [vm_compute; reflexivity|].
  apply (system_delta_sign Sim.World Sim.time Sim.config
           (Sim.query_multiple_servers Sim.net) (Sim.compute_consensus Sim.config)
           Sim.datetime Sim.fromtimestamp_utc Sim.isoformat Sim.format_1f
           FAST Sim.script).
  vm_compute. reflexivity.
Defined.

Lemma get_time_for_timezone_outcome_witness :
  exists tr w',
    Sim.get_time_utc Sim.config Sim.net FAST true Sim.script = (inr tr, w') /\
    exists r,
      Sim.get_time_for_timezone Sim.config Sim.net "Mars/Olympus" FAST true Sim.script =
        (inr r, w') /\
      timezone r = "Mars/Olympus" /\
      ((Server.to_local_time Sim.datetime Sim.tzinfo Sim.fromtimestamp_utc Sim.ZoneInfo
          Sim.astimezone Sim.isoformat tr "Mars/Olympus" = inr (local_time r) /\
        base r = tr) \/
       (exists e,
          Server.to_local_time Sim.datetime Sim.tzinfo Sim.fromtimestamp_utc Sim.ZoneInfo
            Sim.astimezone Sim.isoformat tr "Mars/Olympus" = inl e /\
          local_time r = "ERROR: " ++ Py.str e /\
          base r = Server.with_warnings tr
                     (warnings tr ++ [Server.conversion_warning "Mars/Olympus" e])%list)).
Proof.
  do 2 eexists. split; [vm_compute; reflexivity|].
  apply (proj2 (get_time_for_timezone_outcome Sim.World Sim.time Sim.config
                  (Sim.query_multiple_servers Sim.net) (Sim.compute_consensus Sim.config)
                  Sim.datetime Sim.tzinfo Sim.fromtimestamp_utc Sim.ZoneInfo
                  Sim.astimezone Sim.isoformat Sim.format_1f
                  "Mars/Olympus" FAST true Sim.script)).
  vm_compute. reflexivity.
Defined.

Lemma compare_system_clock_compensates_witness :
  exists r,
    Sim.compare_system_clock Sim.config Sim.net FAST Sim.script =
      (inr r, skipn 4 Sim.script) /\
    cc_trusted_time r = "2023-11-14T22:13:20.155000+00:00" /\
    cc_status r = DRIFT.
Proof.
  eassert (Hrun : Sim.queried Sim.config Sim.net FAST Sim.script _ _ _
                    (skipn 3 Sim.script)).
  { unfold Sim.queried. econstructor.
    - reflexivity.
    - vm_compute; reflexivity.
    - vm_compute; reflexivity.
    - vm_compute; reflexivity. }
  eexists. split.
  - eapply (proj1 (compare_system_clock_compensates Sim.World Sim.time Sim.config
                     (Sim.query_multiple_servers Sim.net)
                     (Sim.compute_consensus Sim.config)
                     Sim.datetime Sim.fromtimestamp_utc Sim.isoformat Sim.format_1f
                     FAST Sim.script) _ _ _ _ _ _ _ _ Hrun).
    + vm_compute; reflexivity.
    + vm_compute; reflexivity.
    + vm_compute; reflexivity.
  - split; vm_compute; reflexivity.
Defined.

Lemma clock_status_magnitude_witness :
  Server.clock_status (opp 150) = Server.clock_status 150 /\
  Server.clock_status nan = ERROR /\
  Server.clock_status neg_infinity = ERROR.
Proof.
  destruct clock_status_magnitude as [Hopp Hnf].
  split; [apply Hopp|]. split; apply Hnf; reflexivity.
Defined.

Lemma clock_status_monotone_witness :
  ((abs 50 <=? abs 60)%float = true /\
   Server.clock_status 60 = OK /\ Server.clock_status 50 = OK) /\
  ((abs 1500 <=? abs (-2000))%float = true /\
   Server.clock_status 1500 = ERROR /\ Server.clock_status (-2000) = ERROR).
Proof.
  split.
  - split; [reflexivity|]. split; [reflexivity|].
    apply (proj1 (clock_status_monotone 50 60 eq_refl)). reflexivity.
  - split; [reflexivity|]. split; [reflexivity|].
    apply (proj2 (clock_status_monotone 1500 (-2000) eq_refl)). reflexivity.
Defined.

Lemma fast_servers_prefix_witness :
  Z.of_nat (List.length (Server.select_servers Sim.config FAST)) = 4 /\
  Z.of_nat (List.length (Server.select_servers Sim.no_servers FAST)) = 0.
Proof.
  split.
  - destruct (fast_servers_prefix Sim.config) as (_ & _ & Hlen & _).
    rewrite Hlen; [reflexivity|]. cbn. lia.
  - destruct (fast_servers_prefix Sim.no_servers) as (_ & _ & Hlen & _).
    rewrite Hlen; [reflexivity|]. cbn. lia.
Defined.

Lemma main_transport_witness :
  Main.main "chuk_mcp_time.server" ["chuk-mcp-time"; "--http"; "8000"] =
    [Main.basicConfig Main.INFO "%(levelname)s:%(name)s:%(message)s";
     Main.info "chuk_mcp_time.server" "Starting Chuk MCP Time Server in HTTP mode";
     Main.run "http"] /\
  Main.main "chuk_mcp_time.server" ["chuk-mcp-time"; "-v"; "http"] =
    [Main.basicConfig Main.WARNING "%(levelname)s:%(name)s:%(message)s";
     Main.setLevel "chuk_mcp_server" Main.ERROR;
     Main.setLevel "chuk_mcp_server.core" Main.ERROR;
     Main.setLevel "chuk_mcp_server.stdio_transport" Main.ERROR;
     Main.run "stdio"].
Proof.
  split.
  - apply (main_transport "chuk_mcp_time.server" ["chuk-mcp-time"; "--http"; "8000"]).
    right. reflexivity.
  - apply (main_transport "chuk_mcp_time.server" ["chuk-mcp-time"; "-v"; "http"]).
    intros [H|H]; discriminate H.
Defined.
